(** * nvmbuilder layout schema: a shallow embedding of [nvmbuilder_schema.py]

    The Python module declares the layout schema as pydantic models and
    adds three hand-written "before" validators ([SizeSource._coerce],
    [LeafEntry._flatten_source], [Config._flatten_blocks]).  This file
    embeds the decoded-document universe, the three validators exactly as
    written, and the pydantic validation discipline the class declarations
    rely on (lax scalar coercion, smart-mode unions, closed and open
    models), and proves properties of the resulting validation functions. *)

From Stdlib Require Import ZArith List String Ascii Bool Lia SpecFloat.
From Stdlib Require Import Permutation.
Import ListNotations.

Local Open Scope string_scope.
Local Open Scope Z_scope.

Set Implicit Arguments.

(** ** Decoded documents

    What [tomllib.load], [yaml.safe_load] and [json.load] hand to
    [Config.model_validate]: [None], booleans, integers, floats, strings,
    lists and string-keyed dicts.  A dict is kept as its item list, in
    insertion order.  Tuples never come out of a decoder; they are in the
    universe because [SizeSource._coerce] builds one. *)

#[warnings="-register-all"]
Inductive value : Type :=
| VNone
| VBool (b : bool)
| VInt (n : Z)
| VFloat (f : spec_float)
| VStr (s : string)
| VList (xs : list value)
| VTuple (xs : list value)
| VDict (items : list (string * value)).

(** ** Python dict operations on the item list *)

Module PyDict.

Definition t := list (string * value).

(** [d.get(k)] *)
Fixpoint get (k : string) (d : t) : option value :=
  match d with
  | [] => None
  | (k', x) :: d' => if String.eqb k' k then Some x else get k d'
  end.

(** [k in d] *)
Definition contains (k : string) (d : t) : bool :=
  match get k d with Some _ => true | None => false end.

(** the dict that [d.pop(k)] leaves behind *)
Definition remove (k : string) (d : t) : t :=
  filter (fun kv => negb (String.eqb (fst kv) k)) d.

(** [d.pop(k)]: the value and the remaining dict; [None] is [KeyError] *)
Definition pop (k : string) (d : t) : option (value * t) :=
  match get k d with
  | Some x => Some (x, remove k d)
  | None => None
  end.

(** [d[k] = x]: an existing key keeps its position, a new one goes last *)
Fixpoint setitem (k : string) (x : value) (d : t) : t :=
  match d with
  | [] => [(k, x)]
  | (k', y) :: d' =>
      if String.eqb k' k then (k, x) :: d' else (k', y) :: setitem k x d'
  end.

Definition keys (d : t) : list string := map fst d.

(** a dict holds each key once *)
Definition wf (d : t) : Prop := NoDup (keys d).

End PyDict.

(** ** Validation errors

    pydantic reports a list of line errors, each with a location path and
    a type.  A [ValueError] raised inside a validator becomes a
    [value_error] line carrying the exception's message. *)

Inductive loc_item : Type :=
| LKey (k : string)
| LIndex (i : nat)
| LMember (tag : string).

Inductive error_type : Type :=
| value_error (msg : string)
| key_error (k : string)
| missing
| extra_forbidden
| int_type | int_parsing | int_from_float | int_parsing_size | finite_number
| float_type | float_parsing
| string_type
| bool_type | bool_parsing
| enum_error
| model_type
| dict_type
| list_type
| tuple_type
| tuple_length
| recursion_loop.

Record error : Type := mk_error { loc : list loc_item; etype : error_type }.

Inductive result (A : Type) : Type :=
| Ok (a : A)
| Err (es : list error).

Arguments Ok {A} a.
Arguments Err {A} es.

Definition fail {A : Type} (t : error_type) : result A := Err [mk_error [] t].

(** [raise ValueError(msg)] inside a validator *)
Definition raise_ValueError {A : Type} (msg : string) : result A :=
  fail (value_error msg).

Definition under (i : loc_item) (e : error) : error :=
  mk_error (i :: loc e) (etype e).

Definition at_loc {A : Type} (i : loc_item) (r : result A) : result A :=
  match r with
  | Ok a => Ok a
  | Err es => Err (map (under i) es)
  end.

Definition rmap {A B : Type} (f : A -> B) (r : result A) : result B :=
  match r with
  | Ok a => Ok (f a)
  | Err es => Err es
  end.

Definition bind {A B : Type} (r : result A) (f : A -> result B) : result B :=
  match r with
  | Ok a => f a
  | Err es => Err es
  end.

(** Fields and items are all validated, and every error is kept. *)
Definition ap {A B : Type} (rf : result (A -> B)) (ra : result A) : result B :=
  match rf, ra with
  | Ok f, Ok a => Ok (f a)
  | Ok _, Err es => Err es
  | Err es, Ok _ => Err es
  | Err es, Err es' => Err (es ++ es')
  end.

Declare Scope result_scope.
Delimit Scope result_scope with result.
Notation "f <$> r" := (rmap f r)
  (at level 61, left associativity) : result_scope.
Notation "rf <*> ra" := (ap rf ra)
  (at level 61, left associativity) : result_scope.
Local Open Scope result_scope.

Definition is_ok {A : Type} (r : result A) : bool :=
  match r with Ok _ => true | Err _ => false end.

(** ** Text to number coercion

    In lax mode pydantic turns numeric text into a number.  Which texts it
    takes is the library's business and differs between releases; the
    schema is studied for any such conversion. *)

Class NumericText : Type := {
  str_as_int : string -> option Z;
  str_as_float : string -> option spec_float
}.

(** ** Scalar validators *)

Section Scalars.

Context {text : NumericText}.

Definition two_63 : Z := 9223372036854775808.

(** lax [float -> int]: finite, no fractional part, inside the i64 range *)
Definition float_as_int (f : spec_float) : result Z :=
  match f with
  | S754_zero _ => Ok 0
  | S754_infinity _ | S754_nan => fail finite_number
  | S754_finite s m e =>
      let mag :=
        if 0 <=? e then Some (Z.pos m * 2 ^ e)
        else if Z.pos m mod 2 ^ (- e) =? 0 then Some (Z.pos m / 2 ^ (- e))
        else None in
      match mag with
      | None => fail int_from_float
      | Some a =>
          let n := if s then - a else a in
          if (- two_63 <? n) && (n <? two_63) then Ok n
          else fail int_parsing_size
      end
  end.

(** [int]: an [int] always; in lax mode also a [bool] (as 0 or 1), an
    integral [float] and numeric text *)
Definition validate_int (strict : bool) (v : value) : result Z :=
  match v with
  | VInt n => Ok n
  | VBool b => if strict then fail int_type else Ok (if b then 1 else 0)
  | VFloat f => if strict then fail int_type else float_as_int f
  | VStr s =>
      if strict then fail int_type
      else match str_as_int s with
           | Some n => Ok n
           | None => fail int_parsing
           end
  | _ => fail int_type
  end.

(** [str]: only a [str], in either mode *)
Definition validate_str (strict : bool) (v : value) : result string :=
  match v with
  | VStr s => Ok s
  | _ => fail string_type
  end.

(** Python's [float(n)] on binary64; an [int] too large raises *)
Definition int_as_float (n : Z) : result spec_float :=
  match binary_normalize 53 1024 n 0 false with
  | S754_infinity _ | S754_nan => fail float_type
  | f => Ok f
  end.

(** [float]: a [float]; an [int] in either mode; in lax mode also a
    [bool] and numeric text *)
Definition validate_float (strict : bool) (v : value) : result spec_float :=
  match v with
  | VFloat f => Ok f
  | VInt n => int_as_float n
  | VBool b =>
      if strict then fail float_type
      else int_as_float (if b then 1 else 0)
  | VStr s =>
      if strict then fail float_type
      else match str_as_float s with
           | Some f => Ok f
           | None => fail float_parsing
           end
  | _ => fail float_type
  end.

Definition lower_ascii (c : ascii) : ascii :=
  let n := nat_of_ascii c in
  if (Nat.leb 65 n && Nat.leb n 90)%bool then ascii_of_nat (n + 32) else c.

Fixpoint lower (s : string) : string :=
  match s with
  | EmptyString => EmptyString
  | String c s' => String (lower_ascii c) (lower s')
  end.

Definition mem_string (s : string) (l : list string) : bool :=
  existsb (String.eqb s) l.

Definition str_as_bool (s : string) : result bool :=
  let l := lower s in
  if mem_string l ["0"; "f"; "n"; "no"; "off"; "false"] then Ok false
  else if mem_string l ["1"; "t"; "y"; "on"; "yes"; "true"] then Ok true
  else fail bool_parsing.

Definition int_as_bool (n : Z) : result bool :=
  if n =? 0 then Ok false
  else if n =? 1 then Ok true
  else fail bool_parsing.

(** [bool]: a [bool]; in lax mode also 0, 1, 0.0, 1.0 and the usual
    yes/no words *)
Definition validate_bool (strict : bool) (v : value) : result bool :=
  match v with
  | VBool b => Ok b
  | VInt n => if strict then fail bool_type else int_as_bool n
  | VFloat f =>
      if strict then fail bool_type
      else match float_as_int f with
           | Ok n => int_as_bool n
           | Err _ => fail bool_type
           end
  | VStr s => if strict then fail bool_type else str_as_bool s
  | _ => fail bool_type
  end.

End Scalars.

(** ** The validated model

    One record or variant per class of the schema; untagged unions become
    variants. *)

Inductive Endianness : Type := little | big.

Record CrcData : Type := mkCrcData {
  polynomial : Z;
  start : Z;
  xor_out : Z;
  ref_in : bool;
  ref_out : bool
}.

(** [CrcLocation = Union[str, int]] *)
Inductive CrcLocation : Type :=
| Keyword (s : string)
| Address (n : Z).

Record Header : Type := mkHeader {
  start_address : Z;
  length : Z;
  crc_location : CrcLocation;
  padding : Z
}.

Inductive ScalarType : Type :=
| u8 | u16 | u32 | u64 | i8 | i16 | i32 | i64 | f32 | f64.

(** [SizeSource(RootModel[Union[int, Tuple[int, int]]])] *)
Inductive SizeSource : Type :=
| SizeSingle (n : Z)
| SizePair (a b : Z).

(** [DataValue = Union[int, float, str]] *)
Inductive DataValue : Type :=
| DInt (n : Z)
| DFloat (f : spec_float)
| DStr (s : string).

(** [ValueSource(RootModel[Union[DataValue, _ValueArray]])] *)
Inductive ValueSource : Type :=
| SingleValue (d : DataValue)
| ValueArray (ds : list DataValue).

(** [EntrySource = Union[_NameSource, _ValueLiteral]] *)
Inductive EntrySource : Type :=
| NameSource (name : string)
| ValueLiteral (value : ValueSource).

Record LeafEntry : Type := mkLeafEntry {
  scalar_type : ScalarType;
  size : option SizeSource;
  source : EntrySource
}.

(** [Entry(RootModel[Union[LeafEntry, Dict[str, Entry]]])] *)
#[warnings="-register-all"]
Inductive Entry : Type :=
| Leaf (e : LeafEntry)
| Group (children : list (string * Entry)).

Record Block : Type := mkBlock {
  header : Header;
  data : Entry
}.

Record Settings : Type := mkSettings {
  endianness : Endianness;
  crc : CrcData
}.

(** [model_extra] is what [extra="allow"] stores. *)
Record Config : Type := mkConfig {
  settings : Settings;
  blocks : list (string * Block);
  model_extra : list (string * value)
}.

(** ** [ValueSource] accessors *)

Definition is_single (v : ValueSource) : bool :=
  match v with SingleValue _ => true | ValueArray _ => false end.

Definition single (v : ValueSource) : result DataValue :=
  match v with
  | ValueArray _ =>
      raise_ValueError "ValueSource contains an array, not a single value"
  | SingleValue d => Ok d
  end.

Definition array (v : ValueSource) : list DataValue :=
  match v with
  | ValueArray ds => ds
  | SingleValue d => [d]
  end.

(** ** The pydantic validation discipline *)

Section Validation.

Context {text : NumericText}.

(** *** Smart-mode unions

    Every member is first tried in strict mode, left to right, and the
    first success is taken; failing that, every member is tried in lax
    mode, again left to right.  When the union is itself validated in
    strict mode only the strict pass runs.  The errors of a failed union
    are those of the last pass, each under its member's tag.

    Later releases of the library validate each member once and rank the
    successes by exactness.  On this schema the two disciplines give the
    same result on every document but for a boolean offered to
    [Union[int, float, str]], where the numeric member taken may
    differ. *)

Definition member (A : Type) : Type := (string * (bool -> result A))%type.

Fixpoint first_ok {A : Type} (strict : bool) (ms : list (member A))
  : result A :=
  match ms with
  | [] => Err []
  | (tag, f) :: ms' =>
      match f strict with
      | Ok a => Ok a
      | Err es =>
          match first_ok strict ms' with
          | Ok a => Ok a
          | Err es' => Err (map (under (LMember tag)) es ++ es')
          end
      end
  end.

Definition smart_union {A : Type} (strict : bool) (ms : list (member A))
  : result A :=
  if strict then first_ok true ms
  else match first_ok true ms with
       | Ok a => Ok a
       | Err _ => first_ok false ms
       end.

(** *** Models

    A model class validated in strict mode takes only instances of the
    class, which no decoded document contains.  In lax mode the
    "before" validator sees the raw input, and the fields validator then
    wants a dict. *)

Definition as_dict (v : value) : result PyDict.t :=
  match v with
  | VDict d => Ok d
  | _ => fail model_type
  end.

Definition required {A : Type} (k : string) (f : value -> result A)
    (d : PyDict.t) : result A :=
  match PyDict.get k d with
  | Some x => at_loc (LKey k) (f x)
  | None => Err [mk_error [LKey k] missing]
  end.

Definition with_default {A : Type} (k : string) (dflt : A)
    (f : value -> result A) (d : PyDict.t) : result A :=
  match PyDict.get k d with
  | Some x => at_loc (LKey k) (f x)
  | None => Ok dflt
  end.

Definition extra_items (known : list string) (d : PyDict.t) : PyDict.t :=
  filter (fun kv => negb (mem_string (fst kv) known)) d.

(** [extra="forbid"]: one error per key that is no field, after the
    errors of the fields *)
Definition forbid_extra {A : Type} (known : list string) (d : PyDict.t)
    (r : result A) : result A :=
  let es := map (fun kv => mk_error [LKey (fst kv)] extra_forbidden)
                (extra_items known d) in
  match r, es with
  | Ok a, [] => Ok a
  | Ok _, _ :: _ => Err es
  | Err es0, _ => Err (es0 ++ es)
  end.

Definition validate_optional {A : Type} (f : value -> result A) (v : value)
  : result (option A) :=
  match v with
  | VNone => Ok None
  | _ => Some <$> f v
  end.

(** *** Containers *)

Fixpoint validate_items {A : Type} (f : value -> result A) (i : nat)
    (xs : list value) : result (list A) :=
  match xs with
  | [] => Ok []
  | x :: xs' =>
      cons <$> at_loc (LIndex i) (f x) <*> validate_items f (S i) xs'
  end.

(** [List[X]]: a list; in lax mode a tuple too *)
Definition validate_list {A : Type} (f : bool -> value -> result A)
    (strict : bool) (v : value) : result (list A) :=
  match v with
  | VList xs => validate_items (f strict) 0 xs
  | VTuple xs =>
      if strict then fail list_type else validate_items (f strict) 0 xs
  | _ => fail list_type
  end.

Fixpoint validate_values {A : Type} (f : value -> result A) (d : PyDict.t)
  : result (list (string * A)) :=
  match d with
  | [] => Ok []
  | (k, x) :: d' =>
      cons <$> (pair k <$> at_loc (LKey k) (f x)) <*> validate_values f d'
  end.

(** [Dict[str, X]] *)
Definition validate_dict {A : Type} (f : bool -> value -> result A)
    (strict : bool) (v : value) : result (list (string * A)) :=
  match v with
  | VDict d => validate_values (f strict) d
  | _ => fail dict_type
  end.

(** [Tuple[int, int]]: a tuple; in lax mode a list too *)
Definition validate_int_pair (strict : bool) (v : value) : result (Z * Z) :=
  let items xs :=
    match xs with
    | [a; b] =>
        pair <$> at_loc (LIndex 0) (validate_int strict a)
             <*> at_loc (LIndex 1) (validate_int strict b)
    | _ => fail tuple_length
    end in
  match v with
  | VTuple xs => items xs
  | VList xs => if strict then fail tuple_type else items xs
  | _ => fail tuple_type
  end.

(** *** Enumerations: looked up by value, in lax mode *)

Definition validate_Endianness (strict : bool) (v : value)
  : result Endianness :=
  match v with
  | VStr s =>
      if strict then fail enum_error
      else if String.eqb s "little" then Ok little
      else if String.eqb s "big" then Ok big
      else fail enum_error
  | _ => fail enum_error
  end.

Definition ScalarType_value (t : ScalarType) : string :=
  match t with
  | u8 => "u8" | u16 => "u16" | u32 => "u32" | u64 => "u64"
  | i8 => "i8" | i16 => "i16" | i32 => "i32" | i64 => "i64"
  | f32 => "f32" | f64 => "f64"
  end.

Definition ScalarType_members : list ScalarType :=
  [u8; u16; u32; u64; i8; i16; i32; i64; f32; f64].

Definition validate_ScalarType (strict : bool) (v : value)
  : result ScalarType :=
  match v with
  | VStr s =>
      if strict then fail enum_error
      else match find (fun t => String.eqb (ScalarType_value t) s)
                      ScalarType_members with
           | Some t => Ok t
           | None => fail enum_error
           end
  | _ => fail enum_error
  end.

(** ** The schema *)

(** [class CrcData(BaseModel)] *)
Definition validate_CrcData (strict : bool) (v : value) : result CrcData :=
  if strict then fail model_type
  else bind (as_dict v) (fun d =>
    mkCrcData <$> required "polynomial" (validate_int false) d
              <*> required "start" (validate_int false) d
              <*> required "xor_out" (validate_int false) d
              <*> required "ref_in" (validate_bool false) d
              <*> required "ref_out" (validate_bool false) d).

(** [CrcLocation = Union[str, int]] *)
Definition validate_CrcLocation (strict : bool) (v : value)
  : result CrcLocation :=
  smart_union strict
    [("str", fun s => Keyword <$> validate_str s v);
     ("int", fun s => Address <$> validate_int s v)].

(** [class Header(BaseModel)]; [padding] defaults to [0xFF] *)
Definition validate_Header (strict : bool) (v : value) : result Header :=
  if strict then fail model_type
  else bind (as_dict v) (fun d =>
    mkHeader <$> required "start_address" (validate_int false) d
             <*> required "length" (validate_int false) d
             <*> required "crc_location" (validate_CrcLocation false) d
             <*> with_default "padding" 255 (validate_int false) d).

(** [isinstance(v, int)]: [bool] is a subclass of [int] *)
Definition isinstance_int (v : value) : bool :=
  match v with
  | VInt _ | VBool _ => true
  | _ => false
  end.

(** [SizeSource._coerce] *)
Definition SizeSource_coerce (v : value) : result value :=
  match v with
  | VList xs =>
      if negb (Nat.eqb (List.length xs) 2)
      then raise_ValueError "size must be length-2 list when array"
      else match xs with
           | [a; b] =>
               if negb (isinstance_int a) || negb (isinstance_int b)
               then raise_ValueError "size list must contain integers"
               else Ok (VTuple [a; b])
           | _ => raise_ValueError "size must be length-2 list when array"
           end
  | _ => Ok v
  end.

(** [class SizeSource(RootModel[Union[int, Tuple[int, int]]])] *)
Definition validate_SizeSource (strict : bool) (v : value)
  : result SizeSource :=
  if strict then fail model_type
  else bind (SizeSource_coerce v) (fun v' =>
    smart_union false
      [("int", fun s => SizeSingle <$> validate_int s v');
       ("tuple[int, int]",
        fun s => (fun p => SizePair (fst p) (snd p))
                   <$> validate_int_pair s v')]).

(** [DataValue = Union[int, float, str]] *)
Definition validate_DataValue (strict : bool) (v : value)
  : result DataValue :=
  smart_union strict
    [("int", fun s => DInt <$> validate_int s v);
     ("float", fun s => DFloat <$> validate_float s v);
     ("str", fun s => DStr <$> validate_str s v)].

(** [class _ValueArray(RootModel[List[DataValue]])] *)
Definition validate_ValueArray (strict : bool) (v : value)
  : result (list DataValue) :=
  if strict then fail model_type
  else validate_list validate_DataValue false v.

(** [class ValueSource(RootModel[Union[DataValue, _ValueArray]])]; the
    nested union flattens to four members *)
Definition validate_ValueSource (strict : bool) (v : value)
  : result ValueSource :=
  if strict then fail model_type
  else smart_union false
    [("int", fun s => (fun n => SingleValue (DInt n)) <$> validate_int s v);
     ("float",
      fun s => (fun f => SingleValue (DFloat f)) <$> validate_float s v);
     ("str", fun s => (fun x => SingleValue (DStr x)) <$> validate_str s v);
     ("_ValueArray", fun s => ValueArray <$> validate_ValueArray s v)].

(** [class _NameSource(BaseModel)] *)
Definition validate_NameSource (strict : bool) (v : value) : result string :=
  if strict then fail model_type
  else bind (as_dict v) (required "name" (validate_str false)).

(** [class _ValueLiteral(BaseModel)] *)
Definition validate_ValueLiteral (strict : bool) (v : value)
  : result ValueSource :=
  if strict then fail model_type
  else bind (as_dict v) (required "value" (validate_ValueSource false)).

(** [EntrySource = Union[_NameSource, _ValueLiteral]] *)
Definition validate_EntrySource (strict : bool) (v : value)
  : result EntrySource :=
  smart_union strict
    [("_NameSource", fun s => NameSource <$> validate_NameSource s v);
     ("_ValueLiteral", fun s => ValueLiteral <$> validate_ValueLiteral s v)].

(** [LeafEntry._flatten_source] *)
Definition LeafEntry_flatten_source (v : value) : result value :=
  match v with
  | VDict d =>
      let has_name := PyDict.contains "name" d in
      let has_value := PyDict.contains "value" d in
      if has_name && has_value
      then raise_ValueError
             "LeafEntry accepts either 'name' or 'value', not both"
      else if negb has_name && negb has_value
      then raise_ValueError "LeafEntry requires either 'name' or 'value'"
      else if has_name then
        match PyDict.pop "name" d with
        | Some (name_val, d') =>
            Ok (VDict (PyDict.setitem "source"
                         (VDict [("name", name_val)]) d'))
        | None => fail (key_error "name")
        end
      else
        match PyDict.pop "value" d with
        | Some (value_val, d') =>
            Ok (VDict (PyDict.setitem "source"
                         (VDict [("value", value_val)]) d'))
        | None => fail (key_error "value")
        end
  | _ => Ok v
  end.

(** the fields of [LeafEntry]: [scalar_type] under its alias [type],
    [size] optional, [source]; [extra="forbid"] *)
Definition LeafEntry_fields (d : PyDict.t) : result LeafEntry :=
  forbid_extra ["type"; "size"; "source"] d
    (mkLeafEntry
       <$> required "type" (validate_ScalarType false) d
       <*> with_default "size" None
             (validate_optional (validate_SizeSource false)) d
       <*> required "source" (validate_EntrySource false) d).

(** [class LeafEntry(BaseModel)] *)
Definition validate_LeafEntry (strict : bool) (v : value)
  : result LeafEntry :=
  if strict then fail model_type
  else bind (LeafEntry_flatten_source v) (fun v' =>
         bind (as_dict v') LeafEntry_fields).

(** [Entry] refers to itself, and the library guards every entry into a
    self-referring model: with [RECURSION_GUARD_LIMIT] validations of it
    already entered on the way down, the next is refused with
    [recursion_loop].  The limit is the library's constant for CPython on
    Linux and macOS. *)
Definition RECURSION_GUARD_LIMIT : nat := 255.

(** [class Entry(RootModel[Union[LeafEntry, Dict[str, "Entry"]]])], with
    [depth] validations of [Entry] entered above this one *)
Fixpoint validate_Entry_at (depth : nat) (strict : bool) (v : value)
    {struct v} : result Entry :=
  if Nat.leb RECURSION_GUARD_LIMIT depth then fail recursion_loop
  else if strict then fail model_type
  else smart_union false
    [("LeafEntry", fun s => Leaf <$> validate_LeafEntry s v);
     ("dict[str,...]",
      fun s =>
        match v with
        | VDict d =>
            Group <$>
              (fix values (d : list (string * value))
                 : result (list (string * Entry)) :=
                 match d with
                 | [] => Ok []
                 | (k, x) :: d' =>
                     cons <$> (pair k <$>
                                 at_loc (LKey k)
                                   (validate_Entry_at (S depth) s x))
                          <*> values d'
                 end) d
        | _ => fail dict_type
        end)].

(** [Entry] validated from the top: nothing entered yet *)
Definition validate_Entry (strict : bool) (v : value) : result Entry :=
  validate_Entry_at 0 strict v.

(** [class Block(BaseModel)] *)
Definition validate_Block (strict : bool) (v : value) : result Block :=
  if strict then fail model_type
  else bind (as_dict v) (fun d =>
    mkBlock <$> required "header" (validate_Header false) d
            <*> required "data" (validate_Entry false) d).

(** [class Settings(BaseModel)] *)
Definition validate_Settings (strict : bool) (v : value) : result Settings :=
  if strict then fail model_type
  else bind (as_dict v) (fun d =>
    mkSettings <$> required "endianness" (validate_Endianness false) d
               <*> required "crc" (validate_CrcData false) d).

(** [Config._flatten_blocks] *)
Definition Config_flatten_blocks (v : value) : result value :=
  match v with
  | VDict input_dict =>
      if negb (PyDict.contains "settings" input_dict)
      then raise_ValueError "Missing required 'settings' at top-level"
      else
        let blocks :=
          fold_left
            (fun blocks kv =>
               if String.eqb (fst kv) "settings" then blocks
               else PyDict.setitem (fst kv) (snd kv) blocks)
            input_dict [] in
        match PyDict.get "settings" input_dict with
        | Some s => Ok (VDict [("settings", s); ("blocks", VDict blocks)])
        | None => fail (key_error "settings")
        end
  | _ => Ok v
  end.

(** [class Config(BaseModel)], [extra="allow"] *)
Definition validate_Config (strict : bool) (v : value) : result Config :=
  if strict then fail model_type
  else bind (Config_flatten_blocks v) (fun v' =>
    bind (as_dict v') (fun d =>
      mkConfig <$> required "settings" (validate_Settings false) d
               <*> required "blocks" (validate_dict validate_Block false) d
               <*> Ok (extra_items ["settings"; "blocks"] d))).

(** [load_layout], from the decoded [data] on: a validation failure is
    re-raised with the file name *)
Inductive load_error : Type :=
| failed_to_parse_file (path : string) (es : list error).

Definition load_layout (path : string) (data : value)
  : Config + load_error :=
  match validate_Config false data with
  | Ok cfg => inl cfg
  | Err es => inr (failed_to_parse_file path es)
  end.

End Validation.


(** ** Canonical serialization

    [cfg.model_dump_json()] writes every model as an object keyed by its
    field names (no aliases), a root model as its root, a tuple as an
    array, and a float that is not finite as [null].  The functions below
    give the document [json.loads] reads back from that text. *)

Definition dump_float (f : spec_float) : value :=
  match f with
  | S754_infinity _ | S754_nan => VNone
  | _ => VFloat f
  end.

Definition dump_DataValue (d : DataValue) : value :=
  match d with
  | DInt n => VInt n
  | DFloat f => dump_float f
  | DStr s => VStr s
  end.

Definition dump_ValueSource (v : ValueSource) : value :=
  match v with
  | SingleValue d => dump_DataValue d
  | ValueArray ds => VList (map dump_DataValue ds)
  end.

Definition dump_EntrySource (s : EntrySource) : value :=
  match s with
  | NameSource n => VDict [("name", VStr n)]
  | ValueLiteral v => VDict [("value", dump_ValueSource v)]
  end.

Definition dump_SizeSource (s : SizeSource) : value :=
  match s with
  | SizeSingle n => VInt n
  | SizePair a b => VList [VInt a; VInt b]
  end.

Definition dump_option {A : Type} (f : A -> value) (o : option A) : value :=
  match o with
  | Some a => f a
  | None => VNone
  end.

Definition dump_LeafEntry (e : LeafEntry) : value :=
  VDict [("scalar_type", VStr (ScalarType_value (scalar_type e)));
         ("size", dump_option dump_SizeSource (size e));
         ("source", dump_EntrySource (source e))].

Fixpoint dump_Entry (e : Entry) : value :=
  match e with
  | Leaf l => dump_LeafEntry l
  | Group children =>
      VDict ((fix items (cs : list (string * Entry)) : list (string * value) :=
                match cs with
                | [] => []
                | (k, c) :: cs' => (k, dump_Entry c) :: items cs'
                end) children)
  end.

Definition dump_CrcLocation (c : CrcLocation) : value :=
  match c with
  | Keyword s => VStr s
  | Address n => VInt n
  end.

Definition dump_Header (h : Header) : value :=
  VDict [("start_address", VInt (start_address h));
         ("length", VInt (length h));
         ("crc_location", dump_CrcLocation (crc_location h));
         ("padding", VInt (padding h))].

Definition dump_Block (b : Block) : value :=
  VDict [("header", dump_Header (header b)); ("data", dump_Entry (data b))].

Definition dump_Endianness (e : Endianness) : value :=
  match e with
  | little => VStr "little"
  | big => VStr "big"
  end.

Definition dump_CrcData (c : CrcData) : value :=
  VDict [("polynomial", VInt (polynomial c));
         ("start", VInt (start c));
         ("xor_out", VInt (xor_out c));
         ("ref_in", VBool (ref_in c));
         ("ref_out", VBool (ref_out c))].

Definition dump_Settings (s : Settings) : value :=
  VDict [("endianness", dump_Endianness (endianness s));
         ("crc", dump_CrcData (crc s))].

Definition dump_Config (c : Config) : value :=
  VDict ([("settings", dump_Settings (settings c));
          ("blocks", VDict (map (fun kb => (fst kb, dump_Block (snd kb)))
                                (blocks c)))]
         ++ model_extra c).

(** ** A concrete text conversion

    Plain decimal integers, with an optional minus sign: fewer texts
    than the library takes (no plus sign, digit separators or blanks).
    It serves only to evaluate the validators on concrete documents; no
    statement below depends on it. *)

Fixpoint digits_value (s : string) (acc : Z) : option Z :=
  match s with
  | EmptyString => Some acc
  | String c s' =>
      let n := nat_of_ascii c in
      if (Nat.leb 48 n && Nat.leb n 57)%bool
      then digits_value s' (10 * acc + Z.of_nat (n - 48))
      else None
  end.

Definition decimal_int (s : string) : option Z :=
  match s with
  | EmptyString => None
  | String "-" EmptyString => None
  | String "-" s' => option_map Z.opp (digits_value s' 0)
  | _ => digits_value s 0
  end.

Definition decimal_float (s : string) : option spec_float :=
  match decimal_int s with
  | Some n =>
      match binary_normalize 53 1024 n 0 false with
      | S754_infinity _ | S754_nan => None
      | f => Some f
      end
  | None => None
  end.

#[export] Instance decimal_text : NumericText :=
  {| str_as_int := decimal_int; str_as_float := decimal_float |}.

(** ** Sample documents *)

Definition sample_settings : value :=
  VDict [("endianness", VStr "little");
         ("crc", VDict [("polynomial", VInt 7); ("start", VInt 0);
                        ("xor_out", VInt 0); ("ref_in", VBool false);
                        ("ref_out", VBool false)])].

Definition sample_header : value :=
  VDict [("start_address", VInt 0); ("length", VInt 16);
         ("crc_location", VStr "end")].

Definition sample_items : PyDict.t :=
  [("settings", sample_settings);
   ("fw", VDict [("header", sample_header);
                 ("data", VDict [("version",
                                  VDict [("type", VStr "u32");
                                         ("value", VInt 1)])])])].

Definition sample_document : value := VDict sample_items.

Definition sample_config : Config :=
  mkConfig
    (mkSettings little (mkCrcData 7 0 0 false false))
    [("fw", mkBlock (mkHeader 0 16 (Keyword "end") 255)
                    (Group [("version",
                             Leaf (mkLeafEntry u32 None
                                     (ValueLiteral (SingleValue (DInt 1)))))]))]
    [].

(** ** Vocabulary of the statements *)

Definition msg_both : string :=
  "LeafEntry accepts either 'name' or 'value', not both".

Definition msg_neither : string :=
  "LeafEntry requires either 'name' or 'value'".

(** the dict [_flatten_source] returns when [k] is the one key present *)
Definition folded (k : string) (x : value) (d : PyDict.t) : PyDict.t :=
  PyDict.setitem "source" (VDict [(k, x)]) (PyDict.remove k d).

(** what a failed [CrcLocation] union reports *)
Definition CrcLocation_mismatch : list error :=
  [mk_error [LMember "str"] string_type; mk_error [LMember "int"] int_type].

Definition is_sequence (v : value) : bool :=
  match v with
  | VList _ | VTuple _ => true
  | _ => false
  end.

Definition sequence_items (v : value) : list value :=
  match v with
  | VList xs | VTuple xs => xs
  | _ => []
  end.

(** the loop of [_flatten_blocks], from the accumulator [acc] *)
Definition collect (acc d : PyDict.t) : PyDict.t :=
  fold_left
    (fun blocks kv =>
       if String.eqb (fst kv) "settings" then blocks
       else PyDict.setitem (fst kv) (snd kv) blocks)
    d acc.

(** the [blocks] object of a serialized configuration *)
Definition dump_blocks (bs : list (string * Block)) : PyDict.t :=
  map (fun kb => (fst kb, dump_Block (snd kb))) bs.

(** [ks = [k1; ...; kn]] wrapped around [v]: [{k1: {... {kn: v}}}] *)
Fixpoint nest (ks : list string) (v : value) : value :=
  match ks with
  | [] => v
  | k :: ks' => VDict [(k, nest ks' v)]
  end.

Fixpoint nest_group (ks : list string) (e : Entry) : Entry :=
  match ks with
  | [] => e
  | k :: ks' => Group [(k, nest_group ks' e)]
  end.

Definition in_u32_range (n : Z) : bool := (0 <=? n) && (n <? 2 ^ 32).

(** the line errors a result carries *)
Definition errors {A : Type} (r : result A) : list error :=
  match r with
  | Ok _ => []
  | Err es => es
  end.

Definition msg_no_settings : string :=
  "Missing required 'settings' at top-level".

Definition msg_not_single : string :=
  "ValueSource contains an array, not a single value".

(** the field names of the models that ignore other keys *)
Definition Header_fields : list string :=
  ["start_address"; "length"; "crc_location"; "padding"].

Definition Block_fields : list string := ["header"; "data"].

Definition Settings_fields : list string := ["endianness"; "crc"].

Definition CrcData_fields : list string :=
  ["polynomial"; "start"; "xor_out"; "ref_in"; "ref_out"].

(** the keys of a leaf's document form, and the internal [source] *)
Definition LeafEntry_keys : list string :=
  ["type"; "size"; "name"; "value"; "source"].

Definition finite_float (f : spec_float) : bool :=
  match f with
  | S754_infinity _ | S754_nan => false
  | _ => true
  end.

Definition finite_DataValue (d : DataValue) : bool :=
  match d with
  | DFloat f => finite_float f
  | _ => true
  end.

Definition finite_ValueSource (v : ValueSource) : bool :=
  match v with
  | SingleValue d => finite_DataValue d
  | ValueArray ds => forallb finite_DataValue ds
  end.

Definition finite_EntrySource (s : EntrySource) : bool :=
  match s with
  | NameSource _ => true
  | ValueLiteral v => finite_ValueSource v
  end.

(** no leaf anywhere in the tree *)
Fixpoint leaf_free (e : Entry) : bool :=
  match e with
  | Leaf _ => false
  | Group children =>
      (fix all (cs : list (string * Entry)) : bool :=
         match cs with
         | [] => true
         | (_, c) :: cs' => leaf_free c && all cs'
         end) children
  end.

(** the integer an element of a size list stands for *)
Definition size_int (v : value) : option Z :=
  match v with
  | VInt n => Some n
  | VBool b => Some (if b then 1 else 0)
  | _ => None
  end.

(** the scalar a document value is when it is an integer, a float or a
    string *)
Definition as_DataValue (v : value) : option DataValue :=
  match v with
  | VInt n => Some (DInt n)
  | VFloat f => Some (DFloat f)
  | VStr s => Some (DStr s)
  | _ => None
  end.

(** the number of entry levels of a tree: 1 for a leaf or an empty
    group *)
Fixpoint Entry_depth (e : Entry) : nat :=
  match e with
  | Leaf _ => 1%nat
  | Group children =>
      S ((fix deepest (cs : list (string * Entry)) : nat :=
            match cs with
            | [] => 0%nat
            | (_, c) :: cs' => Nat.max (Entry_depth c) (deepest cs')
            end) children)
  end.

Definition deepest (cs : list (string * Entry)) : nat :=
  fold_right (fun kc m => Nat.max (Entry_depth (snd kc)) m) 0%nat cs.


(** ** Further sample documents *)

Definition leaf_name_and_value : PyDict.t :=
  [("type", VStr "f32"); ("name", VStr "x");
   ("value", VFloat (S754_finite false 1 0))].

Definition leaf_table : PyDict.t :=
  [("type", VStr "u16"); ("size", VList [VInt 2; VInt 3]);
   ("name", VStr "table")].

Definition leaf_version : PyDict.t :=
  [("type", VStr "u32"); ("value", VInt 1)].

Definition leaf_without_source : PyDict.t :=
  [("type", VStr "u8"); ("foo", VInt 1)].

Definition leaf_with_foo : PyDict.t :=
  [("type", VStr "u8"); ("name", VStr "x"); ("foo", VInt 1)].

Definition leaf_with_source_key : PyDict.t :=
  [("type", VStr "u8"); ("name", VStr "x"); ("source", VInt 1)].

Definition leaf_empty_array : PyDict.t :=
  [("type", VStr "u8"); ("value", VList [])].


Definition sample_header_items : PyDict.t :=
  [("start_address", VInt 0); ("length", VInt 16);
   ("crc_location", VStr "end")].

Definition sample_leaf_table : LeafEntry :=
  mkLeafEntry u16 (Some (SizePair 2 3)) (NameSource "table").

Definition sample_leaf_version : LeafEntry :=
  mkLeafEntry u32 None (ValueLiteral (SingleValue (DInt 1))).

(** * Properties *)

(** ** Dict facts *)

Module PyDictFacts.
Import PyDict.

Lemma get_In (k : string) (d : t) (x : value) :
  get k d = Some x -> In (k, x) d.
Proof.
  induction d as [|[k' y] d IH]; simpl; [discriminate|].
  destruct (String.eqb_spec k' k) as [->|Hne].
  - intros [= ->]. now left.
  - intros H. right. auto.
Qed.

Lemma contains_true (k : string) (d : t) :
  contains k d = true <-> exists x, get k d = Some x.
Proof.
  unfold contains. destruct (get k d) as [x|].
  - split; [eauto | reflexivity].
  - split; [discriminate | intros [x [=]]].
Qed.

Lemma get_setitem_same (k : string) (x : value) (d : t) :
  get k (setitem k x d) = Some x.
Proof.
  induction d as [|[k' y] d IH]; simpl.
  - now rewrite String.eqb_refl.
  - destruct (String.eqb k' k) eqn:E; simpl.
    + now rewrite String.eqb_refl.
    + now rewrite E.
Qed.

Lemma get_setitem_other (k k0 : string) (x : value) (d : t) :
  k <> k0 -> get k (setitem k0 x d) = get k d.
Proof.
  intros Hne.
  induction d as [|[k' y] d IH]; simpl.
  - destruct (String.eqb_spec k0 k); congruence.
  - destruct (String.eqb_spec k' k0) as [->|]; simpl.
    + destruct (String.eqb_spec k0 k); congruence.
    + now rewrite IH.
Qed.

Lemma get_remove_same (k : string) (d : t) : get k (remove k d) = None.
Proof.
  unfold remove.
  induction d as [|[k' y] d IH]; simpl; [reflexivity|].
  destruct (String.eqb k' k) eqn:E; simpl; [assumption|].
  now rewrite E.
Qed.

Lemma get_remove_other (k k0 : string) (d : t) :
  k <> k0 -> get k (remove k0 d) = get k d.
Proof.
  intros Hne. unfold remove.
  induction d as [|[k' y] d IH]; simpl; [reflexivity|].
  destruct (String.eqb_spec k' k0) as [->|]; simpl.
  - destruct (String.eqb_spec k0 k); congruence.
  - now rewrite IH.
Qed.

Lemma In_remove_other (k k0 : string) (x : value) (d : t) :
  k <> k0 -> In (k, x) d -> In (k, x) (remove k0 d).
Proof.
  intros Hne H. unfold remove. apply filter_In. split; [assumption|].
  simpl. destruct (String.eqb_spec k k0); [congruence | reflexivity].
Qed.

Lemma In_setitem_other (k k0 : string) (x y : value) (d : t) :
  k <> k0 -> In (k, x) d -> In (k, x) (setitem k0 y d).
Proof.
  intros Hne.
  induction d as [|[k' z] d IH]; simpl; [tauto|].
  intros [[= -> ->]|H].
  - destruct (String.eqb_spec k k0); [congruence | now left].
  - destruct (String.eqb k' k0); right; auto.
Qed.

Lemma setitem_fresh (k : string) (x : value) (d : t) :
  ~ In k (keys d) -> setitem k x d = (d ++ [(k, x)])%list.
Proof.
  induction d as [|[k' y] d IH]; simpl; [reflexivity|].
  intros H. destruct (String.eqb_spec k' k) as [->|].
  - exfalso. apply H. now left.
  - f_equal. apply IH. tauto.
Qed.

End PyDictFacts.

(** ** Facts on results *)

Lemma rmap_Ok_inv {A B : Type} (f : A -> B) (r : result A) (b : B) :
  f <$> r = Ok b -> exists a, r = Ok a /\ b = f a.
Proof. destruct r; simpl; [intros [= <-]; eauto | discriminate]. Qed.

Lemma ap_Ok_inv {A B : Type} (rf : result (A -> B)) (ra : result A) (b : B) :
  rf <*> ra = Ok b -> exists f a, rf = Ok f /\ ra = Ok a /\ b = f a.
Proof.
  destruct rf, ra; simpl; try discriminate. intros [= <-]. eauto.
Qed.

Lemma at_loc_Ok_inv {A : Type} (i : loc_item) (r : result A) (a : A) :
  at_loc i r = Ok a -> r = Ok a.
Proof. destruct r; simpl; [congruence | discriminate]. Qed.

Lemma bind_Ok_inv {A B : Type} (r : result A) (f : A -> result B) (b : B) :
  bind r f = Ok b -> exists a, r = Ok a /\ f a = Ok b.
Proof. destruct r; simpl; [eauto | discriminate]. Qed.

Ltac inv_ok H :=
  repeat match type of H with
  | _ <$> _ = Ok _ =>
      let a := fresh "a" in let E := fresh "E" in
      apply rmap_Ok_inv in H; destruct H as (a & H & E)
  | _ <*> _ = Ok _ =>
      let f := fresh "f" in let a := fresh "a" in
      let E1 := fresh "E" in let E2 := fresh "E" in
      apply ap_Ok_inv in H; destruct H as (f & a & H & E1 & E2)
  | at_loc _ _ = Ok _ => apply at_loc_Ok_inv in H
  end.

(** ** Leaf entries *)

Section LeafFacts.

Context {text : NumericText}.

Import PyDict PyDictFacts.

Lemma leaf_both (d : t) :
  contains "name" d = true -> contains "value" d = true ->
  validate_LeafEntry false (VDict d) = raise_ValueError msg_both.
Proof.
  intros Hn Hv. unfold validate_LeafEntry, LeafEntry_flatten_source.
  now rewrite Hn, Hv.
Qed.

Lemma leaf_neither (d : t) :
  contains "name" d = false -> contains "value" d = false ->
  validate_LeafEntry false (VDict d) = raise_ValueError msg_neither.
Proof.
  intros Hn Hv. unfold validate_LeafEntry, LeafEntry_flatten_source.
  now rewrite Hn, Hv.
Qed.

Lemma flatten_name (d : t) (x : value) :
  get "name" d = Some x -> contains "value" d = false ->
  LeafEntry_flatten_source (VDict d) = Ok (VDict (folded "name" x d)).
Proof.
  intros Hn Hv. unfold LeafEntry_flatten_source, pop, contains in *.
  rewrite Hn. destruct (get "value" d); [discriminate | reflexivity].
Qed.

Lemma flatten_value (d : t) (x : value) :
  get "value" d = Some x -> contains "name" d = false ->
  LeafEntry_flatten_source (VDict d) = Ok (VDict (folded "value" x d)).
Proof.
  intros Hv Hn. unfold LeafEntry_flatten_source, pop, contains in *.
  rewrite Hv. destruct (get "name" d); [discriminate | reflexivity].
Qed.

(** Whatever [_flatten_source] lets through is a dict folded on one key. *)
Lemma flatten_Ok_inv (d : t) (v' : value) :
  LeafEntry_flatten_source (VDict d) = Ok v' ->
  exists k x, (k = "name" \/ k = "value") /\ get k d = Some x
              /\ v' = VDict (folded k x d).
Proof.
  unfold LeafEntry_flatten_source, pop, contains.
  destruct (get "name" d) as [xn|] eqn:En;
    destruct (get "value" d) as [xv|] eqn:Ev; simpl; try discriminate.
  - intros [= <-]. exists "name", xn. auto.
  - intros [= <-]. exists "value", xv. auto.
Qed.

Lemma leaf_fields_of (d : t) (k : string) (x : value) :
  LeafEntry_flatten_source (VDict d) = Ok (VDict (folded k x d)) ->
  validate_LeafEntry false (VDict d) = LeafEntry_fields (folded k x d).
Proof. intros H. unfold validate_LeafEntry. now rewrite H. Qed.

Lemma forbid_extra_Ok_inv {A : Type} (known : list string) (d : t)
    (r : result A) (a : A) :
  forbid_extra known d r = Ok a -> r = Ok a /\ extra_items known d = [].
Proof.
  unfold forbid_extra. destruct r; [|discriminate].
  destruct (extra_items known d); simpl; [|discriminate].
  intros [= ->]. auto.
Qed.

Lemma forbid_extra_In {A : Type} (known : list string) (d : t)
    (r : result A) (k : string) (y : value) :
  In (k, y) d -> mem_string k known = false ->
  exists es, forbid_extra known d r = Err es
             /\ In (mk_error [LKey k] extra_forbidden) es.
Proof.
  intros Hin Hk.
  assert (Hex : In (k, y) (extra_items known d)).
  { apply filter_In. split; [assumption|]. simpl. now rewrite Hk. }
  apply (in_map (fun kv => mk_error [LKey (fst kv)] extra_forbidden)) in Hex.
  simpl in Hex. unfold forbid_extra.
  destruct (map _ (extra_items known d)) as [|e es] eqn:E; [destruct Hex|].
  destruct r as [a|es0]; eexists; split; try reflexivity.
  - exact Hex.
  - apply in_or_app. now right.
Qed.

(** The fields of a validated leaf, read off the folded dict. *)
Lemma leaf_fields_Ok_inv (d : t) (e : LeafEntry) :
  LeafEntry_fields d = Ok e ->
  required "type" (validate_ScalarType false) d = Ok (scalar_type e)
  /\ with_default "size" None
       (validate_optional (validate_SizeSource false)) d = Ok (size e)
  /\ required "source" (validate_EntrySource false) d = Ok (source e).
Proof.
  unfold LeafEntry_fields. intros H.
  apply forbid_extra_Ok_inv in H. destruct H as [H _].
  inv_ok H. subst. simpl. auto.
Qed.

Lemma required_Ok_inv {A : Type} (k : string) (f : value -> result A)
    (d : t) (a : A) :
  required k f d = Ok a -> exists x, get k d = Some x /\ f x = Ok a.
Proof.
  unfold required. destruct (get k d) as [x|]; [|discriminate].
  intros H. apply at_loc_Ok_inv in H. eauto.
Qed.

Lemma EntrySource_of_name (x : value) (src : EntrySource) :
  validate_EntrySource false (VDict [("name", x)]) = Ok src ->
  exists s, x = VStr s /\ src = NameSource s.
Proof.
  destruct x; cbn; intros [=]; subst; eauto.
Qed.

Lemma EntrySource_of_value (x : value) (src : EntrySource) :
  validate_EntrySource false (VDict [("value", x)]) = Ok src ->
  exists vs, validate_ValueSource false x = Ok vs /\ src = ValueLiteral vs.
Proof.
  unfold validate_EntrySource, smart_union.
  cbn -[validate_ValueSource].
  destruct (validate_ValueSource false x) as [vs|es]; cbn; intros [=].
  subst. eauto.
Qed.

Lemma leaf_source_folded (d : t) (k : string) (x : value) (e : LeafEntry) :
  LeafEntry_fields (folded k x d) = Ok e ->
  validate_EntrySource false (VDict [(k, x)]) = Ok (source e).
Proof.
  intros H. apply leaf_fields_Ok_inv in H. destruct H as (_ & _ & H).
  apply required_Ok_inv in H. destruct H as (y & Hy & H).
  unfold folded in Hy. rewrite get_setitem_same in Hy. now injection Hy as <-.
Qed.

Lemma leaf_type_key (d : t) (e : LeafEntry) :
  validate_LeafEntry false (VDict d) = Ok e -> contains "type" d = true.
Proof.
  unfold validate_LeafEntry. intros H.
  apply bind_Ok_inv in H. destruct H as (v' & Hf & H).
  apply flatten_Ok_inv in Hf. destruct Hf as (k & x & Hk & _ & ->).
  simpl in H. apply leaf_fields_Ok_inv in H. destruct H as (H & _).
  apply required_Ok_inv in H. destruct H as (y & Hy & _).
  apply contains_true. exists y. unfold folded in Hy.
  rewrite get_setitem_other in Hy by discriminate.
  rewrite get_remove_other in Hy; [assumption|].
  destruct Hk as [-> | ->]; discriminate.
Qed.

Lemma leaf_only_dict (v : value) (e : LeafEntry) :
  validate_LeafEntry false v = Ok e -> exists d, v = VDict d.
Proof. destruct v; try discriminate. eauto. Qed.

End LeafFacts.

(** ** The entry tree *)

Section EntryFacts.

Context {text : NumericText}.

Import PyDict PyDictFacts.

Lemma smart_union2_ext {A : Type} (strict : bool) (t1 t2 : string)
    (f1 f1' f2 f2' : bool -> result A) :
  (forall s, f1 s = f1' s) -> (forall s, f2 s = f2' s) ->
  smart_union strict [(t1, f1); (t2, f2)]
  = smart_union strict [(t1, f1'); (t2, f2')].
Proof.
  intros H1 H2. unfold smart_union. simpl. now rewrite !H1, !H2.
Qed.

(** *** The recursion guard *)

Lemma guard_open (n : nat) :
  (n < RECURSION_GUARD_LIMIT)%nat -> Nat.leb RECURSION_GUARD_LIMIT n = false.
Proof. intros H. apply Nat.leb_gt. exact H. Qed.

Lemma guard_shut (n : nat) :
  (RECURSION_GUARD_LIMIT <= n)%nat -> Nat.leb RECURSION_GUARD_LIMIT n = true.
Proof. intros H. apply Nat.leb_le. exact H. Qed.

Lemma guard_open_0 : (0 < RECURSION_GUARD_LIMIT)%nat.
Proof. unfold RECURSION_GUARD_LIMIT. lia. Qed.

Lemma validate_Entry_at_shut (n : nat) (s : bool) (v : value) :
  (RECURSION_GUARD_LIMIT <= n)%nat ->
  validate_Entry_at n s v = fail recursion_loop.
Proof.
  intros H. destruct v; cbn [validate_Entry_at]; now rewrite guard_shut.
Qed.

Lemma validate_Entry_at_strict (n : nat) (v : value) :
  exists es, validate_Entry_at n true v = Err es.
Proof.
  destruct v; cbn [validate_Entry_at];
    destruct (Nat.leb RECURSION_GUARD_LIMIT n); eexists; reflexivity.
Qed.

Lemma validate_Entry_strict (v : value) :
  validate_Entry true v = fail model_type.
Proof. destruct v; reflexivity. Qed.

(** [validate_Entry_at] unfolded once below the limit, its children
    through [validate_dict] *)
Lemma validate_Entry_at_eq (n : nat) (v : value) :
  (n < RECURSION_GUARD_LIMIT)%nat ->
  validate_Entry_at n false v
  = smart_union false
      [("LeafEntry", fun s => Leaf <$> validate_LeafEntry s v);
       ("dict[str,...]",
        fun s => Group <$> validate_dict (validate_Entry_at (S n)) s v)].
Proof.
  intros Hn.
  destruct v; cbn [validate_Entry_at]; rewrite (guard_open Hn);
    try reflexivity.
  apply smart_union2_ext; intros s; [reflexivity|].
  f_equal. unfold validate_dict.
  induction items as [|[k x] d IH]; [reflexivity|].
  cbn [validate_values]. now rewrite <- IH.
Qed.

(** A dict node below the limit: the leaf reading first, the group
    reading if that fails, the children one level further down. *)
Lemma validate_Entry_at_dict (n : nat) (d : t) :
  (n < RECURSION_GUARD_LIMIT)%nat ->
  validate_Entry_at n false (VDict d)
  = match validate_LeafEntry false (VDict d) with
    | Ok e => Ok (Leaf e)
    | Err es =>
        match validate_values (validate_Entry_at (S n) false) d with
        | Ok g => Ok (Group g)
        | Err es' =>
            Err (map (under (LMember "LeafEntry")) es
                 ++ map (under (LMember "dict[str,...]")) es' ++ [])
        end
    end.
Proof.
  intros Hn. rewrite (validate_Entry_at_eq _ Hn).
  unfold smart_union, validate_dict.
  destruct d as [|[k x] d].
  - reflexivity.
  - cbn [first_ok validate_values].
    destruct (validate_Entry_at_strict (S n) x) as (esx & ->).
    change (validate_LeafEntry true (VDict ((k, x) :: d)))
      with (@fail LeafEntry model_type).
    destruct (validate_LeafEntry false (VDict ((k, x) :: d)));
      destruct (validate_values (validate_Entry_at (S n) true) d);
      destruct (at_loc (LKey k) (validate_Entry_at (S n) false x));
      destruct (validate_values (validate_Entry_at (S n) false) d);
      reflexivity.
Qed.

Lemma validate_Entry_dict (d : t) :
  validate_Entry false (VDict d)
  = match validate_LeafEntry false (VDict d) with
    | Ok e => Ok (Leaf e)
    | Err es =>
        match validate_values (validate_Entry_at 1 false) d with
        | Ok g => Ok (Group g)
        | Err es' =>
            Err (map (under (LMember "LeafEntry")) es
                 ++ map (under (LMember "dict[str,...]")) es' ++ [])
        end
    end.
Proof. exact (validate_Entry_at_dict d guard_open_0). Qed.

Lemma validate_Entry_at_open (n : nat) (v : value) (c : Entry) :
  validate_Entry_at n false v = Ok c -> (n < RECURSION_GUARD_LIMIT)%nat.
Proof.
  intros H. destruct (le_lt_dec RECURSION_GUARD_LIMIT n) as [Hn|Hn];
    [|exact Hn].
  rewrite (validate_Entry_at_shut _ _ Hn) in H. discriminate.
Qed.

Lemma valid_entry_at_is_dict (n : nat) (v : value) (c : Entry) :
  validate_Entry_at n false v = Ok c -> exists d, v = VDict d.
Proof.
  intros H. pose proof (validate_Entry_at_open _ _ H) as Hn.
  rewrite (validate_Entry_at_eq _ Hn) in H.
  destruct v; try discriminate. eauto.
Qed.

Lemma valid_entry_is_dict (v : value) (c : Entry) :
  validate_Entry false v = Ok c -> exists d, v = VDict d.
Proof. apply valid_entry_at_is_dict. Qed.

Lemma validate_values_In {A : Type} (f : value -> result A) (d : t)
    (g : list (string * A)) (k : string) (x : value) :
  validate_values f d = Ok g -> In (k, x) d ->
  exists c, f x = Ok c /\ In (k, c) g.
Proof.
  revert g. induction d as [|[k' y] d IH]; intros g H Hin; [destruct Hin|].
  cbn [validate_values] in H. inv_ok H. subst.
  destruct Hin as [[= -> ->]|Hin].
  - exists a1. split; [assumption | now left].
  - destruct (IH _ E Hin) as (c & Hc & Hg). exists c. split; [assumption|].
    now right.
Qed.

Lemma validate_values_keys {A : Type} (f : value -> result A) (d : t)
    (g : list (string * A)) :
  validate_values f d = Ok g ->
  Forall2 (fun kx kc => fst kx = fst kc /\ f (snd kx) = Ok (snd kc)) d g.
Proof.
  revert g. induction d as [|[k y] d IH]; intros g H.
  - injection H as <-. constructor.
  - cbn [validate_values] in H. inv_ok H. subst. constructor; auto.
Qed.

Lemma validate_values_all {A : Type} (f : value -> result A) (d : t) :
  (forall k x, In (k, x) d -> exists c, f x = Ok c) ->
  exists g, validate_values f d = Ok g.
Proof.
  induction d as [|[k y] d IH]; intros H.
  - exists []. reflexivity.
  - destruct (H k y (or_introl eq_refl)) as (c & Hc).
    destruct IH as (g & Hg). { intros k' x Hin. apply (H k' x). now right. }
    exists ((k, c) :: g). cbn [validate_values]. now rewrite Hc, Hg.
Qed.


(** A validated leaf has a scalar-type token under [type]. *)
Lemma leaf_type_token (d : t) (e : LeafEntry) :
  validate_LeafEntry false (VDict d) = Ok e ->
  exists s, get "type" d = Some (VStr s).
Proof.
  unfold validate_LeafEntry. intros H.
  apply bind_Ok_inv in H. destruct H as (v' & Hf & H).
  apply flatten_Ok_inv in Hf. destruct Hf as (k & x & Hk & _ & ->).
  simpl in H. apply leaf_fields_Ok_inv in H. destruct H as (H & _).
  apply required_Ok_inv in H. destruct H as (y & Hy & Hty).
  unfold folded in Hy.
  rewrite get_setitem_other in Hy by discriminate.
  rewrite get_remove_other in Hy by (destruct Hk as [-> | ->]; discriminate).
  destruct y; try discriminate. eauto.
Qed.

(** A leaf needs [type] and one of [name], [value]: two keys at least. *)
Lemma leaf_single_key (k : string) (x : value) :
  exists es, validate_LeafEntry false (VDict [(k, x)]) = Err es.
Proof.
  destruct (validate_LeafEntry false (VDict [(k, x)])) as [e|es] eqn:H;
    [exfalso | eauto].
  pose proof (leaf_type_key _ H) as Ht.
  unfold validate_LeafEntry in H.
  apply bind_Ok_inv in H. destruct H as (v' & Hf & _).
  apply flatten_Ok_inv in Hf. destruct Hf as (k' & y & Hk & Hget & _).
  unfold contains in Ht. simpl in Ht, Hget.
  destruct (String.eqb_spec k "type") as [->|]; [|discriminate].
  destruct Hk as [-> | ->]; discriminate.
Qed.

(** *** Depth

    Where an entry is entered matters only through the guard: a tree
    validates from [n] levels down exactly when it validates from the
    top and its depth fits under the limit there. *)

Lemma value_dict_ind (P : value -> Prop) :
  (forall v, (forall d, v <> VDict d) -> P v) ->
  (forall d, Forall (fun kx => P (snd kx)) d -> P (VDict d)) ->
  forall v, P v.
Proof.
  intros HN HD.
  refine (fix IH (v : value) : P v :=
            match v with
            | VDict d =>
                HD d
                  ((fix all (d : list (string * value))
                      : Forall (fun kx => P (snd kx)) d :=
                      match d with
                      | [] => Forall_nil _
                      | kx :: d' => Forall_cons kx (IH (snd kx)) (all d')
                      end) d)
            | VNone => HN VNone _
            | VBool b => HN (VBool b) _
            | VInt n => HN (VInt n) _
            | VFloat f => HN (VFloat f) _
            | VStr s => HN (VStr s) _
            | VList xs => HN (VList xs) _
            | VTuple xs => HN (VTuple xs) _
            end); intros d' E; discriminate E.
Qed.

Lemma Entry_depth_Group (cs : list (string * Entry)) :
  Entry_depth (Group cs) = S (deepest cs).
Proof.
  cbn [Entry_depth]. f_equal. unfold deepest.
  induction cs as [|[k c] cs IH]; [reflexivity|].
  cbn [fold_right snd]. now rewrite IH.
Qed.

Lemma Entry_depth_pos (e : Entry) : (1 <= Entry_depth e)%nat.
Proof. destruct e; [cbn; lia | rewrite Entry_depth_Group; lia]. Qed.

Lemma children_bound (n : nat) (d : t) (g : list (string * Entry)) :
  Forall (fun kx => forall m c,
            validate_Entry_at m false (snd kx) = Ok c ->
            (m + Entry_depth c <= RECURSION_GUARD_LIMIT)%nat) d ->
  validate_values (validate_Entry_at (S n) false) d = Ok g ->
  (n < RECURSION_GUARD_LIMIT)%nat ->
  (S n + deepest g <= RECURSION_GUARD_LIMIT)%nat.
Proof.
  intros Hall. revert g.
  induction Hall as [|[k x] d Hx _ IH]; intros g H Hn.
  - injection H as <-. cbn. lia.
  - cbn [validate_values] in H. inv_ok H. subst.
    cbn [snd] in Hx. apply Hx in H.
    match goal with
    | E : validate_values _ d = Ok _ |- _ => apply IH in E; [|exact Hn]
    end.
    unfold deepest in *. cbn [fold_right snd]. lia.
Qed.

(** A validated tree fits under the guard from where it was entered. *)
Lemma entry_depth_bound (v : value) :
  forall n c, validate_Entry_at n false v = Ok c ->
              (n + Entry_depth c <= RECURSION_GUARD_LIMIT)%nat.
Proof.
  induction v as [v Hv|d IH] using value_dict_ind; intros n c H.
  - destruct (valid_entry_at_is_dict _ _ H) as [d ->]. now destruct (Hv d).
  - pose proof (validate_Entry_at_open _ _ H) as Hn.
    rewrite (validate_Entry_at_dict _ Hn) in H.
    destruct (validate_LeafEntry false (VDict d)).
    + injection H as <-. cbn. lia.
    + destruct (validate_values _ d) as [g|] eqn:Hg; [|discriminate].
      injection H as <-. rewrite Entry_depth_Group.
      pose proof (children_bound IH Hg Hn). lia.
Qed.

Lemma children_move (m n : nat) (d : t) (g : list (string * Entry)) :
  Forall (fun kx => forall m n c,
            validate_Entry_at m false (snd kx) = Ok c ->
            (n + Entry_depth c <= RECURSION_GUARD_LIMIT)%nat ->
            validate_Entry_at n false (snd kx) = Ok c) d ->
  validate_values (validate_Entry_at (S m) false) d = Ok g ->
  (S n + deepest g <= RECURSION_GUARD_LIMIT)%nat ->
  validate_values (validate_Entry_at (S n) false) d = Ok g.
Proof.
  intros Hall. revert g.
  induction Hall as [|[k x] d Hx _ IH]; intros g H Hn.
  - exact H.
  - cbn [validate_values] in H. inv_ok H. subst.
    unfold deepest in Hn. cbn [fold_right snd] in Hn.
    cbn [snd] in Hx. cbn [validate_values].
    match goal with
    | E : validate_values _ d = Ok ?g' |- _ =>
        fold (deepest g') in Hn;
        rewrite (Hx _ (S n) _ H) by lia; rewrite (IH _ E) by lia
    end.
    reflexivity.
Qed.

(** A tree validated somewhere validates wherever its depth fits. *)
Lemma entry_move (v : value) :
  forall m n c, validate_Entry_at m false v = Ok c ->
                (n + Entry_depth c <= RECURSION_GUARD_LIMIT)%nat ->
                validate_Entry_at n false v = Ok c.
Proof.
  induction v as [v Hv|d IH] using value_dict_ind; intros m n c H Hfit.
  - destruct (valid_entry_at_is_dict _ _ H) as [d ->]. now destruct (Hv d).
  - pose proof (validate_Entry_at_open _ _ H) as Hm.
    pose proof (Entry_depth_pos c) as Hpos.
    assert (Hn : (n < RECURSION_GUARD_LIMIT)%nat) by lia.
    rewrite (validate_Entry_at_dict _ Hm) in H.
    rewrite (validate_Entry_at_dict _ Hn).
    destruct (validate_LeafEntry false (VDict d)); [exact H|].
    destruct (validate_values (validate_Entry_at (S m) false) d) as [g|]
      eqn:Hg; [|discriminate].
    injection H as <-. rewrite Entry_depth_Group in Hfit.
    rewrite (@children_move m n d g IH Hg) by lia. reflexivity.
Qed.

(** What validates further down validates higher up, to the same tree. *)
Lemma entry_up (n m : nat) (v : value) (c : Entry) :
  (m <= n)%nat -> validate_Entry_at n false v = Ok c ->
  validate_Entry_at m false v = Ok c.
Proof.
  intros Hle H. pose proof (entry_depth_bound _ _ H) as Hb.
  eapply entry_move; [exact H | lia].
Qed.

Lemma entry_top (n : nat) (v : value) (c : Entry) :
  validate_Entry_at n false v = Ok c -> validate_Entry false v = Ok c.
Proof. apply entry_up. lia. Qed.

(** The two readings of a node exclude each other: a leaf has a token
    under [type], which is no entry.  So the order and the ranking of the
    union's members never decide between them. *)
Lemma leaf_excludes_group (n : nat) (v : value) (e : LeafEntry) :
  validate_LeafEntry false v = Ok e ->
  exists es, validate_dict (validate_Entry_at n) false v = Err es.
Proof.
  intros H. destruct (leaf_only_dict _ H) as [d ->].
  unfold validate_dict.
  destruct (validate_values (validate_Entry_at n false) d) as [g|es] eqn:Hg;
    [exfalso | eauto].
  apply leaf_type_token in H. destruct H as (s & Hs). apply get_In in Hs.
  destruct (validate_values_In _ _ _ _ Hg Hs) as (c & Hc & _).
  apply valid_entry_at_is_dict in Hc. destruct Hc as [dx [=]].
Qed.

(** A node that [_flatten_source] refuses fails as an entry too, under the
    leaf member's tag, unless the value under [type] is a mapping. *)
Lemma refused_leaf_fails_as_entry (d : t) (x : value) (msg : string) :
  get "type" d = Some x -> (forall dx, x <> VDict dx) ->
  validate_LeafEntry false (VDict d) = raise_ValueError msg ->
  exists es, validate_Entry false (VDict d) = Err es
             /\ In (mk_error [LMember "LeafEntry"] (value_error msg)) es.
Proof.
  intros Hx Hnd H. rewrite validate_Entry_dict, H.
  unfold raise_ValueError, fail.
  destruct (validate_values (validate_Entry_at 1 false) d) as [g|es] eqn:Hg.
  - exfalso. apply get_In in Hx.
    destruct (validate_values_In _ _ _ _ Hg Hx) as (c & Hc & _).
    apply valid_entry_at_is_dict in Hc. destruct Hc as [dx ->].
    now apply (Hnd dx).
  - eexists. split; [reflexivity|]. now left.
Qed.

(** *** Wrapping *)

Lemma single_child_at (n : nat) (k : string) (x : value) (r : Entry) :
  (n < RECURSION_GUARD_LIMIT)%nat ->
  validate_Entry_at n false (VDict [(k, x)]) = Ok r <->
  exists c, validate_Entry_at (S n) false x = Ok c /\ r = Group [(k, c)].
Proof.
  intros Hn. rewrite (validate_Entry_at_dict _ Hn).
  destruct (leaf_single_key k x) as (es & ->).
  cbn [validate_values].
  destruct (validate_Entry_at (S n) false x) as [c|es']; cbn; split.
  - intros [= <-]. eauto.
  - intros (c' & [= <-] & ->). reflexivity.
  - discriminate.
  - intros (c' & [=] & _).
Qed.

Lemma nest_at (ks : list string) :
  forall n v r,
    validate_Entry_at n false (nest ks v) = Ok r <->
    exists c, validate_Entry_at (n + List.length ks) false v = Ok c
              /\ r = nest_group ks c.
Proof.
  induction ks as [|k ks IH]; intros n v r; cbn [nest nest_group List.length].
  - rewrite Nat.add_0_r. split; [eauto | now intros (c & H & ->)].
  - rewrite Nat.add_succ_r. split.
    + intros H. pose proof (validate_Entry_at_open _ _ H) as Hn.
      apply (single_child_at _ _ _ Hn) in H. destruct H as (c' & H & ->).
      apply IH in H. destruct H as (c & H & ->). eauto.
    + intros (c & H & ->).
      assert (Hn : (n < RECURSION_GUARD_LIMIT)%nat)
        by (apply validate_Entry_at_open in H; lia).
      apply (single_child_at _ _ _ Hn). eexists. split; [|reflexivity].
      apply IH. eauto.
Qed.

Lemma nest_top (ks : list string) (v : value) (r : Entry) :
  validate_Entry false (nest ks v) = Ok r <->
  exists c, validate_Entry_at (List.length ks) false v = Ok c
            /\ r = nest_group ks c.
Proof. unfold validate_Entry. exact (nest_at ks 0 v r). Qed.

End EntryFacts.

(** ** Scalars, sizes and literals *)

Section UnionFacts.

Context {text : NumericText}.

Lemma CrcLocation_of_str (s : string) :
  validate_CrcLocation false (VStr s) = Ok (Keyword s).
Proof. reflexivity. Qed.

Lemma CrcLocation_of_int (n : Z) :
  validate_CrcLocation false (VInt n) = Ok (Address n).
Proof. reflexivity. Qed.

Lemma CrcLocation_of_bool (b : bool) :
  validate_CrcLocation false (VBool b) = Ok (Address (if b then 1 else 0)).
Proof. reflexivity. Qed.

Lemma CrcLocation_rejects_containers (v : value) :
  match v with
  | VNone | VList _ | VTuple _ | VDict _ => True
  | _ => False
  end ->
  validate_CrcLocation false v = Err CrcLocation_mismatch.
Proof. destruct v; intros []; reflexivity. Qed.

Lemma SizeSource_of_int (n : Z) :
  validate_SizeSource false (VInt n) = Ok (SizeSingle n).
Proof. reflexivity. Qed.

Lemma SizeSource_of_int_pair (a b : Z) :
  validate_SizeSource false (VList [VInt a; VInt b]) = Ok (SizePair a b).
Proof. reflexivity. Qed.

Lemma SizeSource_wrong_arity (xs : list value) :
  List.length xs <> 2%nat ->
  validate_SizeSource false (VList xs)
  = raise_ValueError "size must be length-2 list when array".
Proof.
  intros H. unfold validate_SizeSource, SizeSource_coerce.
  destruct (Nat.eqb_spec (List.length xs) 2); [contradiction | reflexivity].
Qed.

Lemma SizeSource_not_int (xs : list value) (x : value) :
  List.length xs = 2%nat -> In x xs -> isinstance_int x = false ->
  validate_SizeSource false (VList xs)
  = raise_ValueError "size list must contain integers".
Proof.
  intros Hlen Hin Hx.
  destruct xs as [|a [|b [|c xs]]]; try discriminate.
  unfold validate_SizeSource, SizeSource_coerce. cbn [List.length Nat.eqb negb].
  destruct Hin as [->|[->|[]]]; rewrite Hx; cbn [negb orb]; [reflexivity|].
  now rewrite orb_true_r.
Qed.

Lemma validate_items_Forall2 {A : Type} (f : value -> result A) (i : nat)
    (xs : list value) (ys : list A) :
  validate_items f i xs = Ok ys -> Forall2 (fun x y => f x = Ok y) xs ys.
Proof.
  revert i ys. induction xs as [|x xs IH]; intros i ys H.
  - injection H as <-. constructor.
  - cbn [validate_items] in H. inv_ok H. subst. constructor; eauto.
Qed.

(** How a literal resolves: a sequence to an array of its items, anything
    else to the scalar the three-way union gives. *)
Lemma ValueSource_Ok_inv (x : value) (vs : ValueSource) :
  validate_ValueSource false x = Ok vs ->
  match vs with
  | SingleValue s => is_sequence x = false /\ validate_DataValue false x = Ok s
  | ValueArray ds =>
      is_sequence x = true
      /\ Forall2 (fun y s => validate_DataValue false y = Ok s)
                 (sequence_items x) ds
  end.
Proof.
  destruct x.
  - discriminate.
  - intros [= <-]. split; reflexivity.
  - intros [= <-]. split; reflexivity.
  - intros [= <-]. split; reflexivity.
  - intros [= <-]. split; reflexivity.
  - unfold validate_ValueSource, smart_union.
    cbn -[validate_DataValue validate_items].
    destruct (validate_items (validate_DataValue false) 0 xs) as [ds|es] eqn:E;
      cbn; intros [= <-].
    split; [reflexivity|]. exact (validate_items_Forall2 _ _ _ E).
  - unfold validate_ValueSource, smart_union.
    cbn -[validate_DataValue validate_items].
    destruct (validate_items (validate_DataValue false) 0 xs) as [ds|es] eqn:E;
      cbn; intros [= <-].
    split; [reflexivity|]. exact (validate_items_Forall2 _ _ _ E).
  - discriminate.
Qed.

Lemma ValueSource_of_empty_list :
  validate_ValueSource false (VList []) = Ok (ValueArray []).
Proof. reflexivity. Qed.

End UnionFacts.

(** ** The top level *)

Section ConfigFacts.

Context {text : NumericText}.

Import PyDict PyDictFacts.

Lemma collect_wf (d acc : t) :
  NoDup (keys acc ++ keys d) ->
  collect acc d = (acc ++ remove "settings" d)%list.
Proof.
  revert acc. induction d as [|[k x] d IH]; intros acc H.
  - simpl. now rewrite app_nil_r.
  - unfold collect in *. cbn [fold_left fst snd keys map] in *.
    unfold remove. cbn [filter fst].
    destruct (String.eqb k "settings"); cbn [negb].
    + apply IH. eapply NoDup_remove_1. exact H.
    + rewrite setitem_fresh.
      * rewrite IH; [now rewrite <- app_assoc|].
        unfold keys. rewrite map_app, <- app_assoc. exact H.
      * apply NoDup_remove_2 in H. intros Hin. apply H.
        apply in_or_app. now left.
Qed.

Lemma keys_remove (k : string) (d : t) :
  keys (remove k d) = filter (fun k' => negb (String.eqb k' k)) (keys d).
Proof.
  unfold keys, remove.
  induction d as [|[k' x] d IH]; [reflexivity|].
  cbn [filter map fst]. destruct (String.eqb k' k); cbn [negb map fst];
    now rewrite IH.
Qed.

Lemma In_remove (k k0 : string) (x : value) (d : t) :
  In (k, x) (remove k0 d) -> In (k, x) d /\ k <> k0.
Proof.
  unfold remove. intros H. apply filter_In in H. destruct H as [H E].
  split; [assumption|]. simpl in E. intros ->.
  now rewrite String.eqb_refl in E.
Qed.

Lemma flatten_blocks_wf (d : t) (sv : value) :
  wf d -> get "settings" d = Some sv ->
  Config_flatten_blocks (VDict d)
  = Ok (VDict [("settings", sv); ("blocks", VDict (remove "settings" d))]).
Proof.
  intros Hwf Hs. unfold Config_flatten_blocks, contains. rewrite Hs.
  cbn [negb]. fold (collect [] d). now rewrite collect_wf.
Qed.

Lemma flatten_blocks_Ok_inv (v v' : value) (d' : t) :
  Config_flatten_blocks v = Ok v' -> v' = VDict d' ->
  exists d sv bl,
    v = VDict d /\ get "settings" d = Some sv
    /\ d' = [("settings", sv); ("blocks", VDict bl)].
Proof.
  destruct v; simpl; try (intros [= <-]; discriminate).
  unfold contains. destruct (get "settings" items) as [sv|] eqn:E;
    [|discriminate].
  cbn [negb]. intros [= <-] [= <-]. eauto 6.
Qed.

Lemma validated_config_no_extra (doc : value) (cfg : Config) :
  validate_Config false doc = Ok cfg -> model_extra cfg = [].
Proof.
  unfold validate_Config. intros H.
  apply bind_Ok_inv in H. destruct H as (v' & Hf & H).
  apply bind_Ok_inv in H. destruct H as (d' & Hd & H).
  destruct v'; try discriminate. injection Hd as <-.
  destruct (flatten_blocks_Ok_inv _ Hf eq_refl) as (d & sv & bl & _ & _ & ->).
  inv_ok H.
  match goal with E : Ok (extra_items _ _) = Ok _ |- _ => injection E as <- end.
  subst. reflexivity.
Qed.

(** *** Serialization against validation *)

Lemma Settings_roundtrip (s : Settings) :
  validate_Settings false (dump_Settings s) = Ok s.
Proof. destruct s as [[] []]; reflexivity. Qed.

Lemma Header_roundtrip (h : Header) :
  validate_Header false (dump_Header h) = Ok h.
Proof. destruct h as [a l [] p]; reflexivity. Qed.

Lemma is_ok_false {A : Type} (r : result A) :
  is_ok r = false -> exists es, r = Err es.
Proof. destruct r; [discriminate | eauto]. Qed.

Lemma is_ok_ap {A B : Type} (rf : result (A -> B)) (ra : result A) :
  is_ok (rf <*> ra) = is_ok rf && is_ok ra.
Proof. destruct rf, ra; reflexivity. Qed.

Lemma is_ok_rmap {A B : Type} (f : A -> B) (r : result A) :
  is_ok (f <$> r) = is_ok r.
Proof. destruct r; reflexivity. Qed.

Lemma is_ok_at_loc {A : Type} (i : loc_item) (r : result A) :
  is_ok (at_loc i r) = is_ok r.
Proof. destruct r; reflexivity. Qed.

Lemma get_dump_blocks (k : string) (bs : list (string * Block)) (x : value) :
  get k (dump_blocks bs) = Some x -> exists b, x = dump_Block b.
Proof.
  induction bs as [|[k' b] bs IH]; simpl; [discriminate|].
  destruct (String.eqb k' k); [intros [= <-]; eauto | assumption].
Qed.

(** A serialized block is no header: [start_address] is not among its
    keys. *)
Lemma dumped_block_is_no_header (b : Block) :
  is_ok (validate_Header false (dump_Block b)) = false.
Proof. reflexivity. Qed.

(** The serialized [blocks] object is no block. *)
Lemma dumped_blocks_is_no_block (bs : list (string * Block)) :
  is_ok (validate_Block false (VDict (dump_blocks bs))) = false.
Proof.
  unfold validate_Block. cbn [bind as_dict].
  rewrite is_ok_ap, is_ok_rmap. unfold required at 1.
  destruct (get "header" (dump_blocks bs)) as [x|] eqn:E; [|reflexivity].
  destruct (get_dump_blocks _ _ E) as (b & ->).
  now rewrite is_ok_at_loc, dumped_block_is_no_header.
Qed.

Lemma dumped_config_rejected (cfg : Config) :
  model_extra cfg = [] ->
  is_ok (validate_Config false (dump_Config cfg)) = false.
Proof.
  intros Hex. unfold dump_Config. rewrite Hex.
  fold (dump_blocks (blocks cfg)).
  unfold validate_Config.
  cbn -[validate_Settings validate_Block dump_Settings dump_blocks].
  repeat (rewrite ?is_ok_ap, ?is_ok_rmap, ?is_ok_at_loc).
  rewrite dumped_blocks_is_no_block.
  cbn [andb is_ok]. now rewrite !andb_false_r.
Qed.

End ConfigFacts.

(** * The schema's properties *)

Section SchemaProperties.

Context {text : NumericText}.

Import PyDict PyDictFacts.


(** C3.  A leaf document with both [name] and [value] fails with the
    mutual-exclusion error, one with neither fails with the
    missing-name-or-value error, whatever its [type], [size] and other
    keys; with exactly one of them [_flatten_source] folds it into the
    [source] entry, and a leaf that validates has the source of that
    kind. *)
Theorem leaf_name_value_exclusive (d : t) :
  (contains "name" d = true -> contains "value" d = true ->
     validate_LeafEntry false (VDict d) = raise_ValueError msg_both)
  /\ (contains "name" d = false -> contains "value" d = false ->
        validate_LeafEntry false (VDict d) = raise_ValueError msg_neither)
  /\ (forall x, get "name" d = Some x -> contains "value" d = false ->
        LeafEntry_flatten_source (VDict d) = Ok (VDict (folded "name" x d))
        /\ get "source" (folded "name" x d) = Some (VDict [("name", x)])
        /\ get "name" (folded "name" x d) = None
        /\ forall e, validate_LeafEntry false (VDict d) = Ok e ->
             exists s, x = VStr s /\ source e = NameSource s)
  /\ (forall x, get "value" d = Some x -> contains "name" d = false ->
        LeafEntry_flatten_source (VDict d) = Ok (VDict (folded "value" x d))
        /\ get "source" (folded "value" x d) = Some (VDict [("value", x)])
        /\ get "value" (folded "value" x d) = None
        /\ forall e, validate_LeafEntry false (VDict d) = Ok e ->
             exists vs, validate_ValueSource false x = Ok vs
                        /\ source e = ValueLiteral vs).
Proof.
  split; [exact (leaf_both d)|]. split; [exact (leaf_neither d)|].
  split; intros x Hx Hother.
  - pose proof (flatten_name _ Hx Hother) as Hf.
    repeat split; [exact Hf | apply get_setitem_same | |].
    + unfold folded. rewrite get_setitem_other by discriminate.
      apply get_remove_same.
    + intros e He. rewrite (leaf_fields_of _ _ _ Hf) in He.
      apply leaf_source_folded in He. now apply EntrySource_of_name.
  - pose proof (flatten_value _ Hx Hother) as Hf.
    repeat split; [exact Hf | apply get_setitem_same | |].
    + unfold folded. rewrite get_setitem_other by discriminate.
      apply get_remove_same.
    + intros e He. rewrite (leaf_fields_of _ _ _ Hf) in He.
      apply leaf_source_folded in He. now apply EntrySource_of_value.
Qed.

(** C4, as the code has it.  For a leaf document with exactly one of [name] and
    [value], any key outside [type], [size], [name], [value] and [source]
    makes validation fail, and the errors reported include an
    unrecognized-field error at that key, whatever the other keys are.
    With both or neither of [name] and [value] the leaf fails before its
    keys are examined, with the mutual-exclusion or the
    missing-name-or-value error alone. *)
Theorem leaf_unrecognized_key (d : t) (k : string) :
  contains k d = true ->
  ~ In k ["type"; "size"; "name"; "value"; "source"] ->
  (xorb (contains "name" d) (contains "value" d) = true ->
     exists es, validate_LeafEntry false (VDict d) = Err es
                /\ In (mk_error [LKey k] extra_forbidden) es)
  /\ (contains "name" d = true -> contains "value" d = true ->
        validate_LeafEntry false (VDict d) = raise_ValueError msg_both)
  /\ (contains "name" d = false -> contains "value" d = false ->
        validate_LeafEntry false (VDict d) = raise_ValueError msg_neither).
Proof.
  intros Hk Hout.
  split; [|split; [exact (leaf_both d) | exact (leaf_neither d)]].
  intros Hxor.
  apply contains_true in Hk. destruct Hk as [y Hy]. apply get_In in Hy.
  assert (Hmem : mem_string k ["type"; "size"; "source"] = false).
  { unfold mem_string. cbn [existsb].
    destruct (String.eqb_spec k "type") as [->|];
      [exfalso; apply Hout; simpl; tauto|].
    destruct (String.eqb_spec k "size") as [->|];
      [exfalso; apply Hout; simpl; tauto|].
    destruct (String.eqb_spec k "source") as [->|];
      [exfalso; apply Hout; simpl; tauto|].
    reflexivity. }
  assert (Hfold : forall k0 x, (k0 = "name" \/ k0 = "value") ->
            In (k, y) (folded k0 x d)).
  { intros k0 x Hk0. unfold folded. apply In_setitem_other.
    - intros ->. apply Hout. simpl. tauto.
    - apply In_remove_other; [|assumption].
      intros ->. apply Hout. destruct Hk0 as [-> | ->]; simpl; tauto. }
  destruct (contains "name" d) eqn:Hn; destruct (contains "value" d) eqn:Hv;
    try discriminate.
  - apply contains_true in Hn. destruct Hn as [x Hx].
    rewrite (leaf_fields_of _ _ _ (flatten_name _ Hx Hv)).
    unfold LeafEntry_fields. eapply forbid_extra_In; eauto.
  - apply contains_true in Hv. destruct Hv as [x Hx].
    rewrite (leaf_fields_of _ _ _ (flatten_value _ Hx Hn)).
    unfold LeafEntry_fields. eapply forbid_extra_In; eauto.
Qed.

Lemma Forall2_keys {A B : Type} (P : A -> B -> Prop)
    (l : list (string * A)) (l' : list (string * B)) :
  Forall2 (fun x y => fst x = fst y /\ P (snd x) (snd y)) l l' ->
  map fst l' = map fst l.
Proof.
  induction 1 as [|x y l l' [E _] _ IH]; simpl; [reflexivity|].
  now rewrite E, IH.
Qed.

(** C2.  For a mapping document (a dict, so each key once) whose
    [settings] validates and whose every other top-level value validates
    as a block, validation and [load_layout] succeed, every key other than
    [settings] becomes the block validated from its value, and the keys of
    [blocks] are the document's keys, in order, without [settings]. *)
Theorem config_blocks_in_document_order (path : string) (d : t) (sv : value)
    (s : Settings) :
  wf d ->
  get "settings" d = Some sv ->
  validate_Settings false sv = Ok s ->
  (forall k x, In (k, x) d -> k <> "settings" ->
     exists b, validate_Block false x = Ok b) ->
  exists bs,
    validate_Config false (VDict d) = Ok (mkConfig s bs [])
    /\ load_layout path (VDict d) = inl (mkConfig s bs [])
    /\ map fst bs
       = filter (fun k => negb (String.eqb k "settings")) (keys d)
    /\ Forall2 (fun kx kb => fst kx = fst kb
                             /\ validate_Block false (snd kx) = Ok (snd kb))
               (remove "settings" d) bs.
Proof.
  intros Hwf Hget Hs Hblocks.
  destruct (validate_values_all (validate_Block false) (remove "settings" d))
    as (bs & Hbs).
  { intros k x Hin. apply In_remove in Hin. destruct Hin as [Hin Hk].
    eauto. }
  assert (Hcfg : validate_Config false (VDict d) = Ok (mkConfig s bs [])).
  { unfold validate_Config. rewrite (flatten_blocks_wf Hwf Hget).
    cbn -[validate_Settings validate_Block]. now rewrite Hs, Hbs. }
  pose proof (validate_values_keys _ _ Hbs) as Hall.
  exists bs. repeat split.
  - exact Hcfg.
  - unfold load_layout. now rewrite Hcfg.
  - rewrite (@Forall2_keys _ _ (fun x b => validate_Block false x = Ok b)
               _ _ Hall).
    apply keys_remove.
  - exact Hall.
Qed.

(** C5, as the code has it.  The canonical serialization of a validated
    configuration is the object with the two keys [settings] and
    [blocks].  Its settings, and the header of each block, read back to
    the original; the configuration does not: validation takes the
    [blocks] key of the serialization for the name of a block, which the
    object under it is not, and fails. *)
Theorem serialized_config_is_no_layout_document (doc : value) (cfg : Config) :
  validate_Config false doc = Ok cfg ->
  dump_Config cfg
  = VDict [("settings", dump_Settings (settings cfg));
           ("blocks", VDict (dump_blocks (blocks cfg)))]
  /\ validate_Settings false (dump_Settings (settings cfg))
     = Ok (settings cfg)
  /\ (forall k b, In (k, b) (blocks cfg) ->
        validate_Header false (dump_Header (header b)) = Ok (header b))
  /\ exists es, validate_Config false (dump_Config cfg) = Err es.
Proof.
  intros H. apply validated_config_no_extra in H.
  repeat split.
  - unfold dump_Config. now rewrite H.
  - apply Settings_roundtrip.
  - intros k b _. apply Header_roundtrip.
  - apply is_ok_false. now apply dumped_config_rejected.
Qed.

(** C6, where the code parts from it.  [_coerce] lets a boolean through
    its integer test, and the size [[true, 3]] resolves to the pair
    (1, 3). *)
Theorem size_boolean_element_accepted :
  isinstance_int (VBool true) = true
  /\ SizeSource_coerce (VList [VBool true; VInt 3])
     = Ok (VTuple [VBool true; VInt 3])
  /\ validate_SizeSource false (VList [VBool true; VInt 3])
     = Ok (SizePair 1 3).
Proof. repeat split. Qed.

(** C7, where the code parts from it.  A boolean [crc_location] is not
    rejected: it resolves to the address 1 or 0, and the header around it
    validates. *)
Theorem crc_location_boolean_accepted :
  validate_CrcLocation false (VBool true) = Ok (Address 1)
  /\ validate_CrcLocation false (VBool false) = Ok (Address 0)
  /\ validate_Header false
       (VDict [("start_address", VInt 0); ("length", VInt 16);
               ("crc_location", VBool true)])
     = Ok (mkHeader 0 16 (Address 1) 255).
Proof. repeat split. Qed.

(** C8, where the code parts from it.  Every integer [crc_location]
    resolves to an address, 2^32 and -1 among them: no range is
    checked. *)
Theorem crc_location_address_unbounded :
  (forall n, validate_CrcLocation false (VInt n) = Ok (Address n))
  /\ validate_CrcLocation false (VInt 4294967296) = Ok (Address 4294967296)
  /\ in_u32_range 4294967296 = false
  /\ validate_CrcLocation false (VInt (-1)) = Ok (Address (-1))
  /\ in_u32_range (-1) = false.
Proof. repeat split. Qed.

(** C9, as the code has it.  The literal of a value-sourced leaf is a
    single scalar (integer, float or string), resolved from a payload that is no
    sequence, or an ordered sequence of such scalars, one per item of the
    payload sequence and in its order; the sequence may be empty. *)
Theorem leaf_literal_scalar_or_sequence (d : t) (e : LeafEntry)
    (vs : ValueSource) :
  validate_LeafEntry false (VDict d) = Ok e ->
  source e = ValueLiteral vs ->
  exists x, get "value" d = Some x /\
    match vs with
    | SingleValue s =>
        is_sequence x = false /\ validate_DataValue false x = Ok s
    | ValueArray ds =>
        is_sequence x = true
        /\ Forall2 (fun y s => validate_DataValue false y = Ok s)
                   (sequence_items x) ds
    end.
Proof.
  intros H Hsrc. pose proof H as H'. unfold validate_LeafEntry in H'.
  apply bind_Ok_inv in H'. destruct H' as (v' & Hf & _).
  destruct (flatten_Ok_inv _ Hf) as (k & x & Hk & Hx & ->).
  rewrite (leaf_fields_of _ _ _ Hf) in H. apply leaf_source_folded in H.
  destruct Hk as [-> | ->].
  - apply EntrySource_of_name in H. destruct H as (s & _ & Hs). congruence.
  - apply EntrySource_of_value in H. destruct H as (vs' & Hvs & Hs).
    assert (vs' = vs) as -> by congruence.
    exists x. split; [assumption|]. now apply ValueSource_Ok_inv.
Qed.


End SchemaProperties.

(** * Concrete documents

    The statements above, and the places where the code parts from the
    specification, on explicit documents. *)

Import PyDict.



Lemma sample_items_wf : wf sample_items.
Proof.
  unfold wf. simpl. repeat constructor; simpl; intuition discriminate.
Defined.

Lemma config_blocks_in_document_order_witness :
  exists bs,
    validate_Config false sample_document = Ok (mkConfig
      (mkSettings little (mkCrcData 7 0 0 false false)) bs [])
    /\ load_layout "layout.toml" sample_document = inl (mkConfig
      (mkSettings little (mkCrcData 7 0 0 false false)) bs [])
    /\ map fst bs = ["fw"]
    /\ Forall2 (fun kx kb => fst kx = fst kb
                             /\ validate_Block false (snd kx) = Ok (snd kb))
               (remove "settings" sample_items) bs.
Proof.
  apply (@config_blocks_in_document_order _ "layout.toml" sample_items
           sample_settings).
  - exact sample_items_wf.
  - reflexivity.
  - reflexivity.
  - intros k x [[= <- <-]|[[= <- <-]|[]]] Hk.
    + now contradiction Hk.
    + eexists. reflexivity.
Defined.

Lemma leaf_name_value_exclusive_witness :
  validate_LeafEntry false (VDict leaf_name_and_value)
  = raise_ValueError msg_both
  /\ validate_LeafEntry false (VDict [("type", VStr "u8")])
     = raise_ValueError msg_neither
  /\ (exists s, VStr "table" = VStr s
                /\ source (mkLeafEntry u16 (Some (SizePair 2 3))
                             (NameSource "table")) = NameSource s)
  /\ (exists vs, validate_ValueSource false (VInt 1) = Ok vs
                 /\ source (mkLeafEntry u32 None
                              (ValueLiteral (SingleValue (DInt 1))))
                    = ValueLiteral vs).
Proof.
  split; [|split; [|split]].
  - apply (proj1 (leaf_name_value_exclusive leaf_name_and_value));
      reflexivity.
  - apply (proj1 (proj2 (leaf_name_value_exclusive [("type", VStr "u8")])));
      reflexivity.
  - apply (proj1 (proj2 (proj2 (leaf_name_value_exclusive leaf_table)))
             (VStr "table")); reflexivity.
  - apply (proj2 (proj2 (proj2 (leaf_name_value_exclusive leaf_version)))
             (VInt 1)); reflexivity.
Defined.

(** C4: the leaf [{type: "u8", foo: 1}] has the unrecognized key [foo] and
    fails, but with no unrecognized-field error among its errors. *)
Lemma unrecognized_key_without_source :
  contains "type" leaf_without_source = true
  /\ contains "foo" leaf_without_source = true
  /\ validate_LeafEntry false (VDict leaf_without_source)
     = Err [mk_error [] (value_error msg_neither)]
  /\ ~ (exists es,
          validate_LeafEntry false (VDict leaf_without_source) = Err es
          /\ exists e, In e es /\ etype e = extra_forbidden).
Proof.
  repeat split.
  intros (es & H & e & Hin & He). injection H as <-.
  destruct Hin as [<-|[]]. discriminate.
Qed.

(** The key [source] is outside the leaf's document form too, yet
    [_flatten_source] overwrites it and the leaf validates. *)
Remark source_key_overwritten :
  validate_LeafEntry false (VDict leaf_with_source_key)
  = Ok (mkLeafEntry u8 None (NameSource "x")).
Proof. reflexivity. Qed.

Lemma leaf_unrecognized_key_witness :
  contains "foo" leaf_with_foo = true
  /\ xorb (contains "name" leaf_with_foo) (contains "value" leaf_with_foo)
     = true
  /\ exists es, validate_LeafEntry false (VDict leaf_with_foo) = Err es
                /\ In (mk_error [LKey "foo"] extra_forbidden) es.
Proof.
  split; [reflexivity|]. split; [reflexivity|].
  apply (proj1 (@leaf_unrecognized_key _ leaf_with_foo "foo" eq_refl
                  ltac:(simpl; intuition discriminate))).
  reflexivity.
Defined.

(** C5: the sample document validates, and the serialization of the
    result does not validate to it. *)
Lemma sample_roundtrip_fails :
  validate_Config false sample_document = Ok sample_config
  /\ validate_Config false (dump_Config sample_config)
     = Err [mk_error [LKey "blocks"; LKey "blocks"; LKey "header"] missing;
            mk_error [LKey "blocks"; LKey "blocks"; LKey "data"] missing]
  /\ validate_Config false (dump_Config sample_config) <> Ok sample_config.
Proof. repeat split. discriminate. Qed.

Lemma serialized_config_is_no_layout_document_witness :
  validate_Config false sample_document = Ok sample_config
  /\ exists es, validate_Config false (dump_Config sample_config) = Err es.
Proof.
  split; [reflexivity|].
  apply (@serialized_config_is_no_layout_document _ sample_document
           sample_config eq_refl).
Defined.

(** C9: the leaf [{type: "u8", value: []}] validates, its literal the
    empty sequence. *)
Lemma empty_sequence_literal_accepted :
  exists e, validate_LeafEntry false (VDict leaf_empty_array) = Ok e
            /\ source e = ValueLiteral (ValueArray []).
Proof. eexists. split; reflexivity. Qed.

Lemma leaf_literal_scalar_or_sequence_witness :
  validate_LeafEntry false (VDict leaf_version)
  = Ok (mkLeafEntry u32 None (ValueLiteral (SingleValue (DInt 1))))
  /\ exists x, get "value" leaf_version = Some x
               /\ is_sequence x = false
               /\ validate_DataValue false x = Ok (DInt 1).
Proof.
  split; [reflexivity|].
  apply (@leaf_literal_scalar_or_sequence _ leaf_version
           (mkLeafEntry u32 None (ValueLiteral (SingleValue (DInt 1))))
           (SingleValue (DInt 1)) eq_refl eq_refl).
Defined.



(** * Further properties of the schema *)

(** ** The top level *)

Section TopLevel.

Context {text : NumericText}.

Import PyDict PyDictFacts.

Lemma flatten_blocks_collect (v v' : value) :
  Config_flatten_blocks v = Ok v' ->
  (exists d sv, v = VDict d /\ get "settings" d = Some sv
      /\ v' = VDict [("settings", sv); ("blocks", VDict (collect [] d))])
  \/ ((forall d, v <> VDict d) /\ v' = v).
Proof.
  destruct v; simpl;
    try (intros [= <-]; right; split; [discriminate|reflexivity]).
  unfold contains. destruct (get "settings" items) as [sv|] eqn:E;
    [|discriminate].
  cbn [negb]. intros [= <-]. left. exists items, sv. auto.
Qed.

(** X1.  Validation succeeds only on a mapping with a [settings] key whose
    value validates to the configuration's settings; nothing is kept as
    an extra field; and, each key being there once, the blocks are the
    other entries of the document, each validated from its value, in the
    document's order: none is added, dropped or moved. *)
Theorem validated_config_inversion (doc : value) (cfg : Config) :
  validate_Config false doc = Ok cfg ->
  exists d sv,
    doc = VDict d
    /\ get "settings" d = Some sv
    /\ validate_Settings false sv = Ok (settings cfg)
    /\ model_extra cfg = []
    /\ (wf d ->
        Forall2 (fun kx kb => fst kx = fst kb
                              /\ validate_Block false (snd kx) = Ok (snd kb))
                (remove "settings" d) (blocks cfg)).
Proof.
  intros H. pose proof (validated_config_no_extra _ H) as Hex.
  unfold validate_Config in H.
  apply bind_Ok_inv in H. destruct H as (v' & Hf & H).
  apply bind_Ok_inv in H. destruct H as (d' & Hd & H).
  destruct (flatten_blocks_collect _ Hf) as [(d & sv & -> & Hs & ->)|[Hnd ->]].
  - injection Hd as <-. exists d, sv.
    inv_ok H. subst. cbn [settings blocks].
    apply required_Ok_inv in H. destruct H as (x & Hx & H).
    cbn in Hx. injection Hx as <-.
    match goal with
    | E : required "blocks" _ _ = Ok _ |- _ =>
        apply required_Ok_inv in E; destruct E as (y & Hy & E);
        cbn in Hy; injection Hy as <-; cbn [validate_dict] in E
    end.
    repeat split; try assumption.
    intros Hwf.
    match goal with
    | E : validate_values _ (collect [] d) = Ok _ |- _ =>
        rewrite collect_wf in E by exact Hwf;
        exact (validate_values_keys _ _ E)
    end.
  - destruct doc; try discriminate. now destruct (Hnd items).
Qed.

(** X2.  A mapping without a [settings] key fails with the one
    missing-settings error, whatever its other entries are, and a document
    that is no mapping fails as no model; [load_layout] hands either
    failure on under the file's path. *)
Theorem document_without_settings_rejected (path : string) (v : value) :
  (forall d, v = VDict d -> contains "settings" d = false ->
     validate_Config false v = raise_ValueError msg_no_settings
     /\ load_layout path v
        = inr (failed_to_parse_file path
                 [mk_error [] (value_error msg_no_settings)]))
  /\ ((forall d, v <> VDict d) ->
      validate_Config false v = fail model_type
      /\ load_layout path v
         = inr (failed_to_parse_file path [mk_error [] model_type])).
Proof.
  split.
  - intros d -> Hs.
    assert (H : validate_Config false (VDict d)
                = raise_ValueError msg_no_settings).
    { unfold validate_Config, Config_flatten_blocks. now rewrite Hs. }
    split; [exact H|]. unfold load_layout. now rewrite H.
  - intros Hnd.
    assert (H : validate_Config false v = fail model_type).
    { destruct v; try reflexivity. now destruct (Hnd items). }
    split; [exact H|]. unfold load_layout. now rewrite H.
Qed.

End TopLevel.

(** ** Settings, blocks and headers *)

Section OpenModels.

Context {text : NumericText}.

Import PyDict PyDictFacts.

Lemma errors_rmap {A B : Type} (f : A -> B) (r : result A) :
  errors (f <$> r) = errors r.
Proof. destruct r; reflexivity. Qed.

Lemma errors_ap {A B : Type} (rf : result (A -> B)) (ra : result A) :
  errors (rf <*> ra) = (errors rf ++ errors ra)%list.
Proof. destruct rf, ra; simpl; now rewrite ?app_nil_r. Qed.

Lemma errors_In {A : Type} (r : result A) (e : error) :
  In e (errors r) -> exists es, r = Err es /\ In e es.
Proof. destruct r; simpl; [tauto | eauto]. Qed.

Lemma errors_required_missing {A : Type} (k : string)
    (f : value -> result A) (d : t) :
  get k d = None -> errors (required k f d) = [mk_error [LKey k] missing].
Proof. intros H. unfold required. now rewrite H. Qed.

Ltac other_key H :=
  let E := fresh in
  intros E; apply H; rewrite <- E; simpl; tauto.

(** X3.  [Header], [Block], [Settings] and [CrcData] are open: setting a
    key that is none of the model's fields, to any value, leaves the
    result of validation as it was, success or errors alike. *)
Theorem unknown_key_ignored (k : string) (x : value) (d : t) :
  (~ In k Header_fields ->
     validate_Header false (VDict (setitem k x d))
     = validate_Header false (VDict d))
  /\ (~ In k Block_fields ->
        validate_Block false (VDict (setitem k x d))
        = validate_Block false (VDict d))
  /\ (~ In k Settings_fields ->
        validate_Settings false (VDict (setitem k x d))
        = validate_Settings false (VDict d))
  /\ (~ In k CrcData_fields ->
        validate_CrcData false (VDict (setitem k x d))
        = validate_CrcData false (VDict d)).
Proof.
  repeat split; intros H.
  - unfold validate_Header, required, with_default. cbn [bind as_dict].
    now rewrite !get_setitem_other by other_key H.
  - unfold validate_Block, required. cbn [bind as_dict].
    now rewrite !get_setitem_other by other_key H.
  - unfold validate_Settings, required. cbn [bind as_dict].
    now rewrite !get_setitem_other by other_key H.
  - unfold validate_CrcData, required. cbn [bind as_dict].
    now rewrite !get_setitem_other by other_key H.
Qed.

(** X4.  A header document lacking [start_address], [length] or
    [crc_location] fails, with a missing-field error at that key among its
    errors, whatever its other entries are.  [padding] is the one field
    with a default: in a validated header it is 255 when the key is
    absent, and the integer validated from the key's value otherwise. *)
Theorem header_required_and_default (d : t) :
  (forall k, In k ["start_address"; "length"; "crc_location"] ->
     get k d = None ->
     exists es, validate_Header false (VDict d) = Err es
                /\ In (mk_error [LKey k] missing) es)
  /\ (forall h, validate_Header false (VDict d) = Ok h ->
        match get "padding" d with
        | None => padding h = 255
        | Some x => validate_int false x = Ok (padding h)
        end).
Proof.
  split.
  - intros k Hk Hget. apply errors_In.
    unfold validate_Header. cbn [bind as_dict].
    rewrite !errors_ap, errors_rmap.
    destruct Hk as [<-|[<-|[<-|[]]]];
      rewrite (@errors_required_missing _ _ _ _ Hget);
      rewrite !in_app_iff; simpl; tauto.
  - intros h H. unfold validate_Header in H. cbn [bind as_dict] in H.
    inv_ok H. subst. cbn [padding].
    match goal with
    | E : with_default "padding" _ _ _ = Ok _ |- _ =>
        unfold with_default in E; destruct (get "padding" d);
        [now apply at_loc_Ok_inv in E | now injection E]
    end.
Qed.

(** X5.  A block lacking [header] or [data], settings lacking
    [endianness] or [crc], and CRC parameters lacking any of their five
    fields fail, with a missing-field error at that key among the errors,
    whatever the other entries are. *)
Theorem missing_field_reported (d : t) (k : string) :
  get k d = None ->
  (In k Block_fields ->
     exists es, validate_Block false (VDict d) = Err es
                /\ In (mk_error [LKey k] missing) es)
  /\ (In k Settings_fields ->
        exists es, validate_Settings false (VDict d) = Err es
                   /\ In (mk_error [LKey k] missing) es)
  /\ (In k CrcData_fields ->
        exists es, validate_CrcData false (VDict d) = Err es
                   /\ In (mk_error [LKey k] missing) es).
Proof.
  intros Hget. repeat split; intros Hk; apply errors_In.
  - unfold validate_Block. cbn [bind as_dict].
    rewrite !errors_ap, errors_rmap.
    destruct Hk as [<-|[<-|[]]];
      rewrite (@errors_required_missing _ _ _ _ Hget);
      rewrite !in_app_iff; simpl; tauto.
  - unfold validate_Settings. cbn [bind as_dict].
    rewrite !errors_ap, errors_rmap.
    destruct Hk as [<-|[<-|[]]];
      rewrite (@errors_required_missing _ _ _ _ Hget);
      rewrite !in_app_iff; simpl; tauto.
  - unfold validate_CrcData. cbn [bind as_dict].
    rewrite !errors_ap, errors_rmap.
    destruct Hk as [<-|[<-|[<-|[<-|[<-|[]]]]]];
      rewrite (@errors_required_missing _ _ _ _ Hget);
      rewrite !in_app_iff; simpl; tauto.
Qed.

(** X6.  The enumerations take their tokens and nothing else: a value
    validates as a scalar type exactly when it is the string of one of the
    ten tokens, and as an endianness exactly when it is the string
    [little] or [big]; no other spelling, case or kind of value does. *)
Theorem enum_tokens_exact :
  (forall v t, validate_ScalarType false v = Ok t
               <-> v = VStr (ScalarType_value t))
  /\ (forall v e, validate_Endianness false v = Ok e
                  <-> v = dump_Endianness e).
Proof.
  split; intros v t; split.
  - destruct v; try discriminate. cbn [validate_ScalarType].
    destruct (find _ ScalarType_members) as [t'|] eqn:E; [|discriminate].
    intros [= ->]. apply find_some in E. destruct E as [_ E].
    apply String.eqb_eq in E. now subst.
  - intros ->. destruct t; reflexivity.
  - destruct v; try discriminate. cbn [validate_Endianness].
    destruct (String.eqb_spec s "little") as [->|];
      [intros [= <-]; reflexivity|].
    destruct (String.eqb_spec s "big") as [->|];
      [intros [= <-]; reflexivity | discriminate].
  - intros ->. destruct t; reflexivity.
Qed.

End OpenModels.

(** ** Leaf documents *)

Section LeafDocuments.

Context {text : NumericText}.

Import PyDict PyDictFacts.

Lemma setitem_setitem (k : string) (x y : value) (d : t) :
  setitem k y (setitem k x d) = setitem k y d.
Proof.
  induction d as [|[k' z] d IH]; simpl.
  - now rewrite String.eqb_refl.
  - destruct (String.eqb k' k) eqn:E; simpl.
    + now rewrite String.eqb_refl.
    + now rewrite E, IH.
Qed.

Lemma remove_setitem (k k0 : string) (x : value) (d : t) :
  k <> k0 -> remove k0 (setitem k x d) = setitem k x (remove k0 d).
Proof.
  intros Hne. unfold remove.
  induction d as [|[k' z] d IH]; simpl.
  - destruct (String.eqb_spec k k0); [contradiction | reflexivity].
  - destruct (String.eqb_spec k' k) as [->|Hk]; simpl.
    + destruct (String.eqb_spec k k0); [contradiction|]. simpl.
      now rewrite String.eqb_refl.
    + destruct (String.eqb_spec k' k0); simpl; [assumption|].
      destruct (String.eqb_spec k' k); [contradiction|]. now rewrite IH.
Qed.

Lemma In_setitem_inv (k : string) (x : value) (d : t) (kv : string * value) :
  In kv (setitem k x d) -> kv = (k, x) \/ In kv d.
Proof.
  induction d as [|[k' z] d IH]; simpl.
  - intros [<-|[]]. now left.
  - destruct (String.eqb k' k); simpl.
    + intros [<-|H]; auto.
    + intros [<-|H]; auto. destruct (IH H); auto.
Qed.

(** [_flatten_source] goes through with exactly one of the two keys. *)
Lemma flatten_Ok_one (d : t) (v' : value) :
  LeafEntry_flatten_source (VDict d) = Ok v' ->
  exists k k' x, ((k = "name" /\ k' = "value") \/ (k = "value" /\ k' = "name"))
                 /\ get k d = Some x /\ get k' d = None
                 /\ v' = VDict (folded k x d).
Proof.
  unfold LeafEntry_flatten_source, pop, contains.
  destruct (get "name" d) as [xn|] eqn:En;
    destruct (get "value" d) as [xv|] eqn:Ev; simpl; try discriminate.
  - intros [= <-]. exists "name", "value", xn. auto.
  - intros [= <-]. exists "value", "name", xv. auto.
Qed.

(** X7.  What [_flatten_source] returns for a mapping has the key
    [source] and neither [name] nor [value], and holds every other key of
    the document with the value the document gives it. *)
Theorem flatten_source_keeps_other_keys (d : t) (v' : value) :
  LeafEntry_flatten_source (VDict d) = Ok v' ->
  exists d', v' = VDict d'
    /\ contains "source" d' = true
    /\ contains "name" d' = false
    /\ contains "value" d' = false
    /\ forall k, ~ In k ["name"; "value"; "source"] -> get k d' = get k d.
Proof.
  intros H. apply flatten_Ok_one in H.
  destruct H as (k & k' & x & Hk & Hx & Hx' & ->).
  exists (folded k x d). unfold folded, contains.
  split; [reflexivity|].
  rewrite get_setitem_same.
  assert (Hs : k <> "source" /\ k' <> "source")
    by (destruct Hk as [[-> ->]|[-> ->]]; split; discriminate).
  assert (Hkk : k' <> k)
    by (destruct Hk as [[-> ->]|[-> ->]]; discriminate).
  assert (Hn : get k (setitem "source" (VDict [(k, x)]) (remove k d)) = None).
  { rewrite get_setitem_other by tauto. apply get_remove_same. }
  assert (Hn' : get k' (setitem "source" (VDict [(k, x)]) (remove k d)) = None).
  { rewrite get_setitem_other by tauto. now rewrite get_remove_other. }
  repeat split.
  - destruct Hk as [[-> ->]|[-> ->]]; [now rewrite Hn | now rewrite Hn'].
  - destruct Hk as [[-> ->]|[-> ->]]; [now rewrite Hn' | now rewrite Hn].
  - intros k0 Hk0. rewrite get_setitem_other.
    + apply get_remove_other. intros ->. apply Hk0.
      destruct Hk as [[-> ->]|[-> ->]]; simpl; tauto.
    + intros ->. apply Hk0. simpl. tauto.
Qed.

(** X8.  Whatever a leaf document holds under the key [source] is
    discarded: setting that key, to any value, leaves the result of
    validation as it was. *)
Theorem document_source_key_discarded (d : t) (y : value) :
  validate_LeafEntry false (VDict (setitem "source" y d))
  = validate_LeafEntry false (VDict d).
Proof.
  unfold validate_LeafEntry. f_equal.
  unfold LeafEntry_flatten_source, pop, contains.
  rewrite !get_setitem_other by discriminate.
  destruct (get "name" d); destruct (get "value" d); cbn; try reflexivity;
    now rewrite remove_setitem, setitem_setitem by discriminate.
Qed.

Lemma extra_items_nil (known : list string) (d : t) :
  (forall k x, In (k, x) d -> mem_string k known = true) ->
  extra_items known d = [].
Proof.
  intros H. unfold extra_items.
  induction d as [|[k x] d IH]; [reflexivity|]. cbn [filter fst].
  rewrite (H k x) by now left. cbn [negb].
  apply IH. intros k' x' Hin. apply (H k' x'). now right.
Qed.

Lemma extra_items_nil_inv (known : list string) (d : t) (k : string)
    (x : value) :
  extra_items known d = [] -> In (k, x) d -> mem_string k known = true.
Proof.
  intros H Hin.
  destruct (mem_string k known) eqn:E; [reflexivity|].
  assert (Hf : In (k, x) (extra_items known d)).
  { apply filter_In. split; [assumption|]. simpl. now rewrite E. }
  rewrite H in Hf. destruct Hf.
Qed.

Lemma In_contains (k : string) (x : value) (d : t) :
  In (k, x) d -> contains k d = true.
Proof.
  unfold contains.
  induction d as [|[k' y] d IH]; simpl; [tauto|].
  intros [[= -> ->]|H].
  - now rewrite String.eqb_refl.
  - destruct (String.eqb k' k); auto.
Qed.

Lemma mem_string_In (k : string) (l : list string) :
  mem_string k l = true <-> In k l.
Proof.
  unfold mem_string. rewrite existsb_exists. split.
  - intros (k' & Hin & E). apply String.eqb_eq in E. now subst.
  - intros H. exists k. split; [assumption | apply String.eqb_refl].
Qed.

(** The exact condition under which a mapping validates as a leaf. *)
Lemma leaf_acceptance (d : t) (e : LeafEntry) :
  validate_LeafEntry false (VDict d) = Ok e <->
  exists k k' x,
    ((k = "name" /\ k' = "value") \/ (k = "value" /\ k' = "name"))
    /\ get k d = Some x /\ get k' d = None
    /\ get "type" d = Some (VStr (ScalarType_value (scalar_type e)))
    /\ match get "size" d with
       | None => size e = None
       | Some sv =>
           validate_optional (validate_SizeSource false) sv = Ok (size e)
       end
    /\ validate_EntrySource false (VDict [(k, x)]) = Ok (source e)
    /\ (forall key, contains key d = true -> In key LeafEntry_keys).
Proof.
  split.
  - intros H. pose proof H as H'. unfold validate_LeafEntry in H'.
    apply bind_Ok_inv in H'. destruct H' as (v' & Hf & H').
    pose proof Hf as Hf'. apply flatten_Ok_one in Hf'.
    destruct Hf' as (k & k' & x & Hk & Hx & Hx' & ->).
    exists k, k', x.
    assert (Hs : k <> "source")
      by (destruct Hk as [[-> _]|[-> _]]; discriminate).
    cbn [bind as_dict] in H'. pose proof H' as Hfields.
    apply leaf_fields_Ok_inv in Hfields.
    destruct Hfields as (Hty & Hsz & Hsrc).
    unfold LeafEntry_fields in H'. apply forbid_extra_Ok_inv in H'.
    destruct H' as [_ Hextra].
    assert (Hother : forall k0, k0 <> "source" -> k0 <> k ->
              get k0 (folded k x d) = get k0 d).
    { intros k0 H0 H1. unfold folded. rewrite get_setitem_other by congruence.
      apply get_remove_other. congruence. }
    repeat split; try assumption.
    + apply required_Ok_inv in Hty. destruct Hty as (y & Hy & Hty).
      rewrite Hother in Hy
        by (destruct Hk as [[-> _]|[-> _]]; discriminate).
      destruct y; try discriminate. cbn [validate_ScalarType] in Hty.
      destruct (find _ ScalarType_members) as [t|] eqn:E; [|discriminate].
      injection Hty as <-. apply find_some in E. destruct E as [_ E].
      apply String.eqb_eq in E. now rewrite E.
    + unfold with_default in Hsz. rewrite Hother in Hsz
        by (destruct Hk as [[-> _]|[-> _]]; discriminate).
      destruct (get "size" d); [now apply at_loc_Ok_inv in Hsz|].
      now injection Hsz.
    + apply required_Ok_inv in Hsrc. destruct Hsrc as (y & Hy & Hsrc).
      unfold folded in Hy. rewrite get_setitem_same in Hy.
      now injection Hy as <-.
    + intros key Hkey. apply contains_true in Hkey. destruct Hkey as [y Hy].
      apply get_In in Hy.
      destruct (String.eqb_spec key k) as [->|Hne].
      { destruct Hk as [[-> _]|[-> _]]; simpl; tauto. }
      destruct (String.eqb_spec key "source") as [->|Hne'];
        [simpl; tauto|].
      assert (Hin : In (key, y) (folded k x d)).
      { unfold folded. apply In_setitem_other; [assumption|].
        now apply In_remove_other. }
      apply (@extra_items_nil_inv _ _ _ _ Hextra) in Hin.
      apply mem_string_In in Hin. simpl in Hin. simpl. tauto.
  - intros (k & k' & x & Hk & Hx & Hx' & Hty & Hsz & Hsrc & Hkeys).
    assert (Hf : LeafEntry_flatten_source (VDict d)
                 = Ok (VDict (folded k x d))).
    { destruct Hk as [[-> ->]|[-> ->]];
        [apply flatten_name | apply flatten_value];
        try assumption; unfold contains; now rewrite Hx'. }
    rewrite (leaf_fields_of _ _ _ Hf).
    assert (Hs : k <> "source" /\ k <> "type" /\ k <> "size")
      by (destruct Hk as [[-> _]|[-> _]]; repeat split; discriminate).
    assert (Hother : forall k0, k0 <> "source" -> k0 <> k ->
              get k0 (folded k x d) = get k0 d).
    { intros k0 H0 H1. unfold folded. rewrite get_setitem_other by congruence.
      apply get_remove_other. congruence. }
    unfold LeafEntry_fields, required, with_default.
    rewrite (Hother "type"), (Hother "size")
      by (try discriminate; intros E; symmetry in E; tauto).
    assert (Hsource : get "source" (folded k x d) = Some (VDict [(k, x)]))
      by apply get_setitem_same.
    rewrite Hsource, Hty, Hsrc.
    assert (Hscalar : validate_ScalarType false
                        (VStr (ScalarType_value (scalar_type e)))
                      = Ok (scalar_type e))
      by (destruct (scalar_type e); reflexivity).
    rewrite Hscalar. unfold forbid_extra.
    rewrite extra_items_nil.
    + destruct e as [t sz src]. cbn [scalar_type size source] in *.
      destruct (get "size" d); cbn [at_loc rmap ap forbid_extra map];
        [now rewrite Hsz | now subst].
    + intros k0 y Hin. apply mem_string_In. unfold folded in Hin.
      apply In_setitem_inv in Hin. destruct Hin as [[= -> _]|Hin];
        [simpl; tauto|].
      unfold remove in Hin. apply filter_In in Hin. destruct Hin as [Hin Hne].
      cbn [fst] in Hne.
      pose proof (In_contains _ _ _ Hin) as Hc.
      pose proof (Hkeys _ Hc) as Hkey.
      unfold LeafEntry_keys in Hkey. simpl in Hkey.
      destruct (String.eqb_spec k0 k) as [->|Hk0]; [discriminate|].
      assert (Hk0' : k0 <> k').
      { intros ->. apply contains_true in Hc. destruct Hc as [z Hz].
        congruence. }
      simpl. destruct Hk as [[-> ->]|[-> ->]]; intuition congruence.
Qed.


(** X9.  A mapping validates as a leaf exactly when it holds one of
    [name] and [value] and not the other, a scalar-type token under
    [type], no [size] or one that resolves, a source that resolves from
    the key it holds, and no key outside [type], [size], [name], [value]
    and [source]; the leaf is then made of the parts so resolved. *)
Theorem leaf_accepted_exactly (d : t) (e : LeafEntry) :
  validate_LeafEntry false (VDict d) = Ok e <->
  exists k k' x,
    ((k = "name" /\ k' = "value") \/ (k = "value" /\ k' = "name"))
    /\ get k d = Some x /\ get k' d = None
    /\ get "type" d = Some (VStr (ScalarType_value (scalar_type e)))
    /\ match get "size" d with
       | None => size e = None
       | Some sv =>
           validate_optional (validate_SizeSource false) sv = Ok (size e)
       end
    /\ validate_EntrySource false (VDict [(k, x)]) = Ok (source e)
    /\ (forall key, contains key d = true -> In key LeafEntry_keys).
Proof. exact (leaf_acceptance d e). Qed.

Lemma In_get_wf (k : string) (x : value) (d : t) :
  wf d -> In (k, x) d -> get k d = Some x.
Proof.
  unfold wf, keys.
  induction d as [|[k' y] d IH]; intros Hwf Hin; [destruct Hin|].
  cbn [map fst] in Hwf. inversion Hwf as [|? ? Hnot Hnd]; subst.
  cbn [get]. destruct Hin as [[= -> ->]|Hin].
  - now rewrite String.eqb_refl.
  - destruct (String.eqb_spec k' k) as [->|]; [|now apply IH].
    exfalso. apply Hnot. apply (in_map fst) in Hin. exact Hin.
Qed.

Lemma wf_Permutation (d d' : t) : wf d -> Permutation d d' -> wf d'.
Proof.
  unfold wf, keys. intros Hwf Hp.
  eapply Permutation_NoDup; [|exact Hwf]. now apply Permutation_map.
Qed.

Lemma get_Permutation (k : string) (d d' : t) :
  wf d -> Permutation d d' -> get k d' = get k d.
Proof.
  intros Hwf Hp. pose proof (wf_Permutation Hwf Hp) as Hwf'.
  destruct (get k d) as [x|] eqn:E.
  - apply get_In in E. apply In_get_wf; [assumption|].
    eapply Permutation_in; eassumption.
  - destruct (get k d') as [y|] eqn:E'; [|reflexivity].
    apply get_In in E'. apply Permutation_sym in Hp.
    apply (Permutation_in _ Hp) in E'. apply (@In_get_wf _ _ _ Hwf) in E'.
    congruence.
Qed.

(** X19.  The order of the keys of a leaf document does not matter: a
    mapping that validates as a leaf validates to the same leaf with its
    entries in any other order. *)
Theorem leaf_key_order_irrelevant (d d' : t) (e : LeafEntry) :
  wf d -> Permutation d d' ->
  validate_LeafEntry false (VDict d) = Ok e ->
  validate_LeafEntry false (VDict d') = Ok e.
Proof.
  intros Hwf Hp H. apply leaf_acceptance in H. apply leaf_acceptance.
  destruct H as (k & k' & x & Hk & Hx & Hx' & Hty & Hsz & Hsrc & Hkeys).
  exists k, k', x. unfold contains.
  rewrite !(@get_Permutation _ _ _ Hwf Hp).
  repeat split; try assumption.
  intros key. rewrite (@get_Permutation _ _ _ Hwf Hp). apply Hkeys.
Qed.

End LeafDocuments.

(** ** Literals and sizes *)

Section LiteralsAndSizes.

Context {text : NumericText}.

(** X10.  The accessors of a literal follow the document it was validated
    from: it is single exactly when the payload is no sequence; [array]
    has one element for a scalar payload, the scalar [single] returns, and
    as many as the payload has items for a sequence, for which [single]
    raises its error. *)
Theorem literal_accessors (x : value) (vs : ValueSource) :
  validate_ValueSource false x = Ok vs ->
  is_single vs = negb (is_sequence x)
  /\ List.length (array vs)
     = (if is_sequence x then List.length (sequence_items x) else 1%nat)
  /\ (is_sequence x = false ->
      exists d, validate_DataValue false x = Ok d
                /\ single vs = Ok d /\ array vs = [d])
  /\ (is_sequence x = true ->
      single vs = raise_ValueError msg_not_single).
Proof.
  intros H. apply ValueSource_Ok_inv in H.
  destruct vs as [d|ds]; destruct H as [Hseq H]; rewrite Hseq; cbn.
  - repeat split; [eauto | discriminate].
  - repeat split; [|discriminate].
    symmetry. exact (Forall2_length H).
Qed.

Lemma DataValue_of_scalar (v : value) (d : DataValue) :
  as_DataValue v = Some d -> validate_DataValue false v = Ok d.
Proof. destruct v; intros [= <-]; reflexivity. Qed.

Lemma validate_items_scalars (i : nat) (xs : list value)
    (ds : list DataValue) :
  map as_DataValue xs = map Some ds ->
  validate_items (validate_DataValue false) i xs = Ok ds.
Proof.
  revert i ds. induction xs as [|x xs IH]; intros i [|d ds] H;
    try discriminate; [reflexivity|].
  cbn [map] in H. injection H as Hd Hds.
  cbn [validate_items]. now rewrite (DataValue_of_scalar _ Hd), (IH _ _ Hds).
Qed.

(** X11.  A literal keeps the kind the document gives it, whatever the
    text conversion is: an integer stays an integer, a float a float, and
    a string a string even when it spells a number; a list of such values,
    of one kind or mixed, validates to the array of them in order.  A
    string [crc_location] likewise stays a keyword. *)
Theorem literal_keeps_document_kind :
  (forall v d, as_DataValue v = Some d ->
     validate_ValueSource false v = Ok (SingleValue d))
  /\ (forall xs ds, map as_DataValue xs = map Some ds ->
        validate_ValueSource false (VList xs) = Ok (ValueArray ds))
  /\ (forall s, validate_CrcLocation false (VStr s) = Ok (Keyword s)).
Proof.
  repeat split.
  - intros v d H. destruct v; try discriminate; injection H as <-;
      reflexivity.
  - intros xs ds H. unfold validate_ValueSource, smart_union.
    cbn -[validate_DataValue validate_items].
    now rewrite (validate_items_scalars 0 _ _ H).
Qed.

(** X12.  A list validates as a size exactly when it has two elements,
    each an integer or a boolean; the size is then the pair of the two,
    a boolean counting as 1 or 0. *)
Theorem size_list_accepted_exactly (xs : list value) (s : SizeSource) :
  validate_SizeSource false (VList xs) = Ok s <->
  exists a b na nb,
    xs = [a; b] /\ size_int a = Some na /\ size_int b = Some nb
    /\ s = SizePair na nb.
Proof.
  split.
  - destruct xs as [|a [|b [|c xs]]]; try discriminate.
    intros H. exists a, b.
    destruct a; try discriminate; destruct b; try discriminate;
      cbn in H; injection H as <-; do 2 eexists; repeat split; reflexivity.
  - intros (a & b & na & nb & -> & Ha & Hb & ->).
    destruct a; try discriminate; destruct b; try discriminate;
      cbn in Ha, Hb; injection Ha as <-; injection Hb as <-; reflexivity.
Qed.

Lemma DataValue_roundtrip (d : DataValue) :
  finite_DataValue d = true ->
  validate_DataValue false (dump_DataValue d) = Ok d.
Proof.
  destruct d as [n|f|s]; try reflexivity.
  destruct f; try discriminate; reflexivity.
Qed.

Lemma DataValue_single_roundtrip (d : DataValue) :
  finite_DataValue d = true ->
  validate_ValueSource false (dump_DataValue d) = Ok (SingleValue d).
Proof.
  destruct d as [n|f|s]; try reflexivity.
  destruct f; try discriminate; reflexivity.
Qed.

Lemma validate_items_roundtrip (i : nat) (ds : list DataValue) :
  forallb finite_DataValue ds = true ->
  validate_items (validate_DataValue false) i (map dump_DataValue ds) = Ok ds.
Proof.
  revert i. induction ds as [|d ds IH]; intros i H; [reflexivity|].
  cbn [forallb] in H. apply andb_true_iff in H. destruct H as [Hd Hds].
  cbn [map validate_items]. now rewrite (DataValue_roundtrip _ Hd), IH.
Qed.

Lemma ValueSource_roundtrip (v : ValueSource) :
  finite_ValueSource v = true ->
  validate_ValueSource false (dump_ValueSource v) = Ok v.
Proof.
  destruct v as [d|ds]; cbn [finite_ValueSource dump_ValueSource]; intros H.
  - now apply DataValue_single_roundtrip.
  - unfold validate_ValueSource, smart_union.
    cbn -[validate_DataValue validate_items].
    now rewrite validate_items_roundtrip.
Qed.

(** X13.  The parts of a leaf read back from their serialization: a size
    always, and a literal and a source whenever every float they hold is
    finite. *)
Theorem serialized_leaf_parts_read_back :
  (forall s, validate_SizeSource false (dump_SizeSource s) = Ok s)
  /\ (forall v, finite_ValueSource v = true ->
        validate_ValueSource false (dump_ValueSource v) = Ok v)
  /\ (forall s, finite_EntrySource s = true ->
        validate_EntrySource false (dump_EntrySource s) = Ok s).
Proof.
  repeat split.
  - intros [n|a b]; reflexivity.
  - exact ValueSource_roundtrip.
  - intros [n|v] H; [reflexivity|].
    cbn [finite_EntrySource] in H. apply ValueSource_roundtrip in H.
    unfold validate_EntrySource, smart_union, dump_EntrySource.
    cbn -[validate_ValueSource dump_ValueSource]. now rewrite H.
Qed.

End LiteralsAndSizes.

(** ** Entry trees *)

Section EntryTrees.

Context {text : NumericText}.

Import PyDict PyDictFacts.

(** X14.  Depth matters to validity only through the recursion guard: a
    document wrapped in mappings of one key each, along a path of keys,
    validates exactly when the document validates that many levels down,
    to the entry wrapped in groups along the same path.  So a document
    that validates to a tree still validates when wrapped as long as the
    path and the tree together stay within 255 levels, and is refused
    once they exceed it. *)
Theorem nesting_validity_by_depth (ks : list string) (v : value) :
  (forall r, validate_Entry false (nest ks v) = Ok r <->
     exists c, validate_Entry_at (List.length ks) false v = Ok c
               /\ r = nest_group ks c)
  /\ (forall c, validate_Entry false v = Ok c ->
        (List.length ks + Entry_depth c <= RECURSION_GUARD_LIMIT)%nat ->
        validate_Entry false (nest ks v) = Ok (nest_group ks c))
  /\ (forall c, validate_Entry false v = Ok c ->
        (RECURSION_GUARD_LIMIT < List.length ks + Entry_depth c)%nat ->
        exists es, validate_Entry false (nest ks v) = Err es).
Proof.
  split; [|split].
  - intros r. exact (nest_top ks v r).
  - intros c H Hfit. apply nest_top. exists c.
    split; [|reflexivity].
    eapply entry_move; [exact H | exact Hfit].
  - intros c H Hdeep.
    destruct (validate_Entry false (nest ks v)) as [r|es] eqn:E;
      [exfalso | eauto].
    apply nest_top in E. destruct E as (c' & E & _).
    pose proof (entry_depth_bound _ _ E) as Hb.
    apply entry_top in E. unfold validate_Entry in *.
    assert (c' = c) by congruence. subst. lia.
Qed.

(** X15.  What validates as a group is a mapping, and the group has one
    child for each key of the mapping, under that key and in the
    mapping's order, validated from the key's value. *)
Theorem group_children_in_document_order (v : value)
    (g : list (string * Entry)) :
  validate_Entry false v = Ok (Group g) ->
  exists d, v = VDict d
    /\ map fst g = keys d
    /\ Forall2 (fun kx kc => fst kx = fst kc
                             /\ validate_Entry false (snd kx) = Ok (snd kc))
               d g.
Proof.
  intros H. destruct (valid_entry_is_dict _ H) as [d ->].
  rewrite validate_Entry_dict in H.
  destruct (validate_LeafEntry false (VDict d)); [discriminate|].
  destruct (validate_values (validate_Entry_at 1 false) d) as [g'|] eqn:Hg;
    [|discriminate].
  injection H as <-. apply validate_values_keys in Hg.
  exists d. repeat split.
  - clear - Hg. induction Hg as [|x y l l' [E _] _ IH]; [reflexivity|].
    unfold keys in *. simpl. now rewrite E, IH.
  - clear - Hg. induction Hg as [|x y l l' [E Hc] _ IH]; constructor;
      [|exact IH].
    split; [exact E | exact (entry_top _ _ Hc)].
Qed.

Lemma Entry_induction (P : Entry -> Prop) :
  (forall l, P (Leaf l)) ->
  (forall cs, Forall (fun kc => P (snd kc)) cs -> P (Group cs)) ->
  forall e, P e.
Proof.
  intros HL HG.
  refine (fix IH (e : Entry) : P e :=
            match e with
            | Leaf l => HL l
            | Group cs =>
                HG cs
                  ((fix all (cs : list (string * Entry))
                      : Forall (fun kc => P (snd kc)) cs :=
                      match cs with
                      | [] => Forall_nil _
                      | kc :: cs' => Forall_cons kc (IH (snd kc)) (all cs')
                      end) cs)
            end).
Qed.

Lemma dump_Entry_Group (cs : list (string * Entry)) :
  dump_Entry (Group cs)
  = VDict (map (fun kc => (fst kc, dump_Entry (snd kc))) cs).
Proof.
  cbn [dump_Entry]. f_equal.
  induction cs as [|[k c] cs IH]; [reflexivity|].
  cbn [map fst snd]. now rewrite IH.
Qed.

Lemma leaf_free_Group (cs : list (string * Entry)) :
  leaf_free (Group cs) = forallb (fun kc => leaf_free (snd kc)) cs.
Proof.
  cbn [leaf_free].
  induction cs as [|[k c] cs IH]; [reflexivity|].
  cbn [forallb snd]. now rewrite IH.
Qed.

Lemma dump_Entry_is_dict (e : Entry) : exists d, dump_Entry e = VDict d.
Proof.
  destruct e; [eexists; reflexivity|]. rewrite dump_Entry_Group. eauto.
Qed.

(** The serialization of a group never reads as a leaf: every value in it
    is a mapping, none a token. *)
Lemma dumped_group_is_no_leaf (cs : list (string * Entry)) :
  exists es, validate_LeafEntry false (dump_Entry (Group cs)) = Err es.
Proof.
  rewrite dump_Entry_Group.
  destruct (validate_LeafEntry false _) as [e|es] eqn:H; [exfalso | eauto].
  apply leaf_type_token in H. destruct H as (s & H). apply get_In in H.
  apply in_map_iff in H. destruct H as ([k c] & [= _ Hc] & _).
  destruct (dump_Entry_is_dict c) as (d & Hd). cbn [snd] in Hc. congruence.
Qed.

(** A leaf serializes under [scalar_type], [size] and [source]: a
    document that is no entry, wherever it stands. *)
Lemma dumped_leaf_is_no_entry (n : nat) (l : LeafEntry) :
  exists es, validate_Entry_at n false (dump_LeafEntry l) = Err es.
Proof.
  unfold dump_LeafEntry.
  destruct (validate_Entry_at n false _) as [r|es] eqn:H; [exfalso | eauto].
  pose proof (validate_Entry_at_open _ _ H) as Hn.
  rewrite (validate_Entry_at_dict _ Hn), leaf_neither in H by reflexivity.
  unfold raise_ValueError, fail in H.
  destruct (validate_values (validate_Entry_at (S n) false) _) as [g|]
    eqn:Hg; [|discriminate].
  eapply validate_values_In in Hg; [|left; reflexivity].
  destruct Hg as (c & Hc & _).
  apply valid_entry_at_is_dict in Hc. destruct Hc as [dx [=]].
Qed.

Lemma dumped_children_at (n : nat) (cs : list (string * Entry)) :
  (n < RECURSION_GUARD_LIMIT)%nat ->
  Forall (fun kc => forall m,
            if leaf_free (snd kc)
               && Nat.leb (m + Entry_depth (snd kc)) RECURSION_GUARD_LIMIT
            then validate_Entry_at m false (dump_Entry (snd kc))
                 = Ok (snd kc)
            else exists es,
                validate_Entry_at m false (dump_Entry (snd kc)) = Err es)
         cs ->
  if forallb (fun kc => leaf_free (snd kc)) cs
     && Nat.leb (S n + deepest cs) RECURSION_GUARD_LIMIT
  then validate_values (validate_Entry_at (S n) false)
         (map (fun kc => (fst kc, dump_Entry (snd kc))) cs) = Ok cs
  else exists es,
      validate_values (validate_Entry_at (S n) false)
        (map (fun kc => (fst kc, dump_Entry (snd kc))) cs) = Err es.
Proof.
  intros Hn. induction 1 as [|[k c] cs Hc _ IH].
  - cbn [forallb deepest fold_right map validate_values andb].
    rewrite Nat.add_0_r.
    destruct (Nat.leb_spec (S n) RECURSION_GUARD_LIMIT); [reflexivity | lia].
  - specialize (Hc (S n)). cbn [snd fst] in Hc.
    unfold deepest in *. cbn [forallb map validate_values fst snd fold_right].
    set (rest := fold_right _ 0%nat cs) in *.
    destruct (Nat.leb_spec (S n + Nat.max (Entry_depth c) rest)
                RECURSION_GUARD_LIMIT) as [Hall|Hall];
      destruct (Nat.leb_spec (S n + Entry_depth c) RECURSION_GUARD_LIMIT)
        as [Hhd|Hhd];
      destruct (Nat.leb_spec (S n + rest) RECURSION_GUARD_LIMIT)
        as [Htl|Htl]; try lia;
      destruct (leaf_free c); cbn [andb] in *;
      destruct (forallb (fun kc => leaf_free (snd kc)) cs); cbn [andb] in *;
      try (rewrite Hc); try (destruct Hc as (esc & ->));
      try (rewrite IH); try (destruct IH as (esr & ->));
      cbn [at_loc rmap ap];
      try reflexivity; try (eexists; reflexivity);
      destruct (validate_values _ _); cbn [ap]; eexists; reflexivity.
Qed.

Lemma serialized_entry_at (e : Entry) :
  forall n,
    if leaf_free e && Nat.leb (n + Entry_depth e) RECURSION_GUARD_LIMIT
    then validate_Entry_at n false (dump_Entry e) = Ok e
    else exists es, validate_Entry_at n false (dump_Entry e) = Err es.
Proof.
  induction e as [l|cs IH] using Entry_induction; intros n.
  - cbn [leaf_free dump_Entry andb]. apply dumped_leaf_is_no_entry.
  - rewrite leaf_free_Group, Entry_depth_Group, Nat.add_succ_r.
    destruct (le_lt_dec RECURSION_GUARD_LIMIT n) as [Hn|Hn].
    + destruct (Nat.leb_spec (S (n + deepest cs)) RECURSION_GUARD_LIMIT);
        [lia|].
      rewrite andb_false_r, (validate_Entry_at_shut _ _ Hn).
      cbv beta iota. eexists. reflexivity.
    + pose proof (dumped_children_at Hn IH) as Hcs.
      destruct (dumped_group_is_no_leaf cs) as (es & Hleaf).
      rewrite dump_Entry_Group in Hleaf |- *.
      rewrite (validate_Entry_at_dict _ Hn), Hleaf.
      cbn [Nat.add] in Hcs.
      destruct (forallb _ cs && _).
      * now rewrite Hcs.
      * destruct Hcs as (es' & ->). eauto.
Qed.

(** X16.  The serialization of an entry tree reads back to the tree
    exactly when the tree holds no leaf and is no deeper than the 255
    levels the recursion guard admits; a tree with a leaf anywhere in it,
    or a deeper one, serializes to a document that does not validate as
    an entry. *)
Theorem serialized_entry_reads_back_exactly (e : Entry) :
  if leaf_free e && Nat.leb (Entry_depth e) RECURSION_GUARD_LIMIT
  then validate_Entry false (dump_Entry e) = Ok e
  else exists es, validate_Entry false (dump_Entry e) = Err es.
Proof. exact (serialized_entry_at e 0). Qed.

End EntryTrees.

(** ** Unions by kind, and the place of [settings] *)

Section KindsAndOrder.

Context {text : NumericText}.

Import PyDict PyDictFacts.

(** X17.  A [crc_location] resolves by the kind of its value: a string is
    a keyword, as it stands; any other value is an address exactly when it
    validates as an integer in lax mode, and is rejected otherwise. *)
Theorem crc_location_by_kind (v : value) :
  match v with
  | VStr s => validate_CrcLocation false v = Ok (Keyword s)
  | _ =>
      match validate_int false v with
      | Ok n => validate_CrcLocation false v = Ok (Address n)
      | Err _ => exists es, validate_CrcLocation false v = Err es
      end
  end.
Proof.
  destruct v; cbn; try reflexivity; try (eexists; reflexivity).
  unfold validate_CrcLocation, smart_union. cbn.
  destruct (float_as_int f); cbn; [reflexivity | eauto].
Qed.

Lemma get_app_fresh (k : string) (d1 d2 : t) :
  ~ In k (keys d1) -> get k (d1 ++ d2)%list = get k d2.
Proof.
  induction d1 as [|[k' x] d1 IH]; simpl; [reflexivity|].
  intros H. destruct (String.eqb_spec k' k) as [->|]; [tauto|].
  apply IH. tauto.
Qed.

Lemma remove_fresh (k : string) (d : t) :
  ~ In k (keys d) -> remove k d = d.
Proof.
  unfold remove. induction d as [|[k' x] d IH]; simpl; [reflexivity|].
  intros H. destruct (String.eqb_spec k' k) as [->|]; [tauto|].
  simpl. f_equal. apply IH. tauto.
Qed.

Lemma remove_app (k : string) (d1 d2 : t) :
  remove k (d1 ++ d2)%list = (remove k d1 ++ remove k d2)%list.
Proof. unfold remove. apply filter_app. Qed.

(** X18.  Where [settings] stands among the keys of the document does not
    matter: the document with [settings] moved to the front validates to
    the same result. *)
Theorem settings_position_irrelevant (d1 d2 : t) (sv : value) :
  wf (d1 ++ ("settings", sv) :: d2)%list ->
  validate_Config false (VDict (d1 ++ ("settings", sv) :: d2)%list)
  = validate_Config false (VDict (("settings", sv) :: d1 ++ d2)%list).
Proof.
  intros Hwf. unfold wf, keys in Hwf. rewrite map_app in Hwf.
  cbn [map fst] in Hwf.
  pose proof (NoDup_remove_1 _ _ _ Hwf) as Hnd.
  pose proof (NoDup_remove_2 _ _ _ Hwf) as Hnot.
  assert (H1 : ~ In "settings" (keys d1))
    by (intros H; apply Hnot, in_or_app; now left).
  assert (H2 : ~ In "settings" (keys d2))
    by (intros H; apply Hnot, in_or_app; now right).
  assert (Hwf1 : wf (d1 ++ ("settings", sv) :: d2)%list).
  { unfold wf, keys. rewrite map_app. exact Hwf. }
  assert (Hwf2 : wf (("settings", sv) :: d1 ++ d2)%list).
  { unfold wf, keys. cbn [map fst]. constructor.
    - rewrite map_app. exact Hnot.
    - rewrite map_app. exact Hnd. }
  unfold validate_Config.
  rewrite (@flatten_blocks_wf _ sv Hwf1), (@flatten_blocks_wf _ sv Hwf2).
  - assert (Hcons : forall d, remove "settings" (("settings", sv) :: d)
                                = remove "settings" d) by reflexivity.
    now rewrite remove_app, !Hcons, remove_app.
  - cbn [get]. now rewrite String.eqb_refl.
  - rewrite get_app_fresh by exact H1. cbn [get].
    now rewrite String.eqb_refl.
Qed.

End KindsAndOrder.

(** ** The further properties on concrete documents *)

Lemma validated_config_inversion_witness :
  validate_Config false sample_document = Ok sample_config
  /\ exists d sv,
       sample_document = VDict d
       /\ get "settings" d = Some sv
       /\ validate_Settings false sv = Ok (settings sample_config)
       /\ model_extra sample_config = []
       /\ (wf d ->
           Forall2 (fun kx kb =>
                      fst kx = fst kb
                      /\ validate_Block false (snd kx) = Ok (snd kb))
                   (remove "settings" d) (blocks sample_config)).
Proof.
  split; [reflexivity|].
  exact (@validated_config_inversion _ sample_document sample_config eq_refl).
Defined.

Lemma document_without_settings_rejected_witness :
  (contains "settings" [("fw", VDict [])] = false
   /\ validate_Config false (VDict [("fw", VDict [])])
      = raise_ValueError msg_no_settings)
  /\ validate_Config false (VList []) = fail model_type.
Proof.
  split.
  - split; [reflexivity|].
    apply (proj1 (document_without_settings_rejected "layout.json"
                    (VDict [("fw", VDict [])])) _ eq_refl eq_refl).
  - apply (proj2 (document_without_settings_rejected "layout.json" (VList []))).
    discriminate.
Defined.

Lemma unknown_key_ignored_witness :
  ~ In "pading" Header_fields
  /\ validate_Header false
       (VDict (setitem "pading" (VInt 0) sample_header_items))
     = validate_Header false (VDict sample_header_items).
Proof.
  assert (H : ~ In "pading" Header_fields)
    by (simpl; intuition discriminate).
  split; [exact H|].
  exact (proj1 (unknown_key_ignored "pading" (VInt 0) sample_header_items) H).
Defined.

Lemma header_required_and_default_witness :
  (get "start_address" [("length", VInt 16)] = None
   /\ exists es,
        validate_Header false (VDict [("length", VInt 16)]) = Err es
        /\ In (mk_error [LKey "start_address"] missing) es)
  /\ (validate_Header false (VDict sample_header_items)
      = Ok (mkHeader 0 16 (Keyword "end") 255)
      /\ padding (mkHeader 0 16 (Keyword "end") 255) = 255).
Proof.
  split; (split; [reflexivity|]).
  - apply (proj1 (header_required_and_default [("length", VInt 16)]));
      [simpl; tauto | reflexivity].
  - apply (proj2 (header_required_and_default sample_header_items)
             (mkHeader 0 16 (Keyword "end") 255) eq_refl).
Defined.

Lemma missing_field_reported_witness :
  get "data" [("header", sample_header)] = None
  /\ exists es,
       validate_Block false (VDict [("header", sample_header)]) = Err es
       /\ In (mk_error [LKey "data"] missing) es.
Proof.
  split; [reflexivity|].
  apply (proj1 (@missing_field_reported _ [("header", sample_header)] "data"
                  eq_refl)).
  simpl. tauto.
Defined.

Lemma enum_tokens_exact_witness :
  validate_ScalarType false (VStr "u16") = Ok u16
  /\ VStr "little" = dump_Endianness little.
Proof.
  split.
  - apply (proj1 enum_tokens_exact). reflexivity.
  - apply (proj2 enum_tokens_exact). reflexivity.
Defined.

Lemma flatten_source_keeps_other_keys_witness :
  LeafEntry_flatten_source (VDict leaf_table)
  = Ok (VDict (folded "name" (VStr "table") leaf_table))
  /\ exists d', VDict (folded "name" (VStr "table") leaf_table) = VDict d'
       /\ contains "source" d' = true
       /\ contains "name" d' = false
       /\ contains "value" d' = false
       /\ forall k, ~ In k ["name"; "value"; "source"] ->
                    get k d' = get k leaf_table.
Proof.
  split; [reflexivity|].
  exact (@flatten_source_keeps_other_keys leaf_table _ eq_refl).
Defined.

Lemma leaf_accepted_exactly_witness :
  validate_LeafEntry false (VDict leaf_table) = Ok sample_leaf_table.
Proof.
  apply leaf_accepted_exactly.
  exists "name", "value", (VStr "table").
  repeat split; try reflexivity; [now left|].
  intros key H. apply PyDictFacts.contains_true in H. destruct H as [y H].
  apply PyDictFacts.get_In in H.
  destruct H as [[= <- _]|[[= <- _]|[[= <- _]|[]]]];
    unfold LeafEntry_keys; simpl; tauto.
Defined.

Lemma literal_accessors_witness :
  validate_ValueSource false (VList [VInt 1; VInt 2])
  = Ok (ValueArray [DInt 1; DInt 2])
  /\ is_single (ValueArray [DInt 1; DInt 2]) = false
  /\ List.length (array (ValueArray [DInt 1; DInt 2])) = 2%nat.
Proof.
  split; [reflexivity|].
  pose proof (@literal_accessors _ (VList [VInt 1; VInt 2])
                (ValueArray [DInt 1; DInt 2]) eq_refl) as (H1 & H2 & _).
  split; [exact H1 | exact H2].
Defined.

Lemma literal_keeps_document_kind_witness :
  validate_ValueSource false (VStr "12") = Ok (SingleValue (DStr "12"))
  /\ validate_ValueSource false (VList [VInt 1; VStr "2"])
     = Ok (ValueArray [DInt 1; DStr "2"]).
Proof.
  split.
  - apply (proj1 literal_keeps_document_kind). reflexivity.
  - apply (proj1 (proj2 literal_keeps_document_kind)). reflexivity.
Defined.

Lemma size_list_accepted_exactly_witness :
  validate_SizeSource false (VList [VInt 2; VInt 3]) = Ok (SizePair 2 3).
Proof.
  apply size_list_accepted_exactly.
  exists (VInt 2), (VInt 3), 2, 3. repeat split.
Defined.

Lemma serialized_leaf_parts_read_back_witness :
  finite_ValueSource (ValueArray [DInt 1; DStr "a"]) = true
  /\ validate_ValueSource false
       (dump_ValueSource (ValueArray [DInt 1; DStr "a"]))
     = Ok (ValueArray [DInt 1; DStr "a"]).
Proof.
  split; [reflexivity|].
  apply (proj1 (proj2 serialized_leaf_parts_read_back)). reflexivity.
Defined.

Lemma nesting_validity_by_depth_witness :
  validate_Entry false (VDict leaf_version) = Ok (Leaf sample_leaf_version)
  /\ (List.length ["a"; "b"] + Entry_depth (Leaf sample_leaf_version)
      <= RECURSION_GUARD_LIMIT)%nat
  /\ validate_Entry false (nest ["a"; "b"] (VDict leaf_version))
     = Ok (nest_group ["a"; "b"] (Leaf sample_leaf_version)).
Proof.
  assert (H : (List.length ["a"; "b"] + Entry_depth (Leaf sample_leaf_version)
               <= RECURSION_GUARD_LIMIT)%nat)
    by (unfold RECURSION_GUARD_LIMIT; simpl; lia).
  split; [reflexivity|]. split; [exact H|].
  exact (proj1 (proj2 (nesting_validity_by_depth ["a"; "b"]
                         (VDict leaf_version)))
           (Leaf sample_leaf_version) eq_refl H).
Defined.

Lemma group_children_in_document_order_witness :
  validate_Entry false (VDict [("a", VDict []); ("b", VDict leaf_version)])
  = Ok (Group [("a", Group []); ("b", Leaf sample_leaf_version)])
  /\ exists d,
       VDict [("a", VDict []); ("b", VDict leaf_version)] = VDict d
       /\ map fst [("a", Group []); ("b", Leaf sample_leaf_version)] = keys d
       /\ Forall2 (fun kx kc =>
                     fst kx = fst kc
                     /\ validate_Entry false (snd kx) = Ok (snd kc))
                  d [("a", Group []); ("b", Leaf sample_leaf_version)].
Proof.
  split; [reflexivity|].
  exact (@group_children_in_document_order _
           (VDict [("a", VDict []); ("b", VDict leaf_version)])
           [("a", Group []); ("b", Leaf sample_leaf_version)] eq_refl).
Defined.

Lemma settings_position_irrelevant_witness :
  wf ([("fw", VDict [])] ++ [("settings", sample_settings)])%list
  /\ validate_Config false
       (VDict ([("fw", VDict [])] ++ [("settings", sample_settings)])%list)
     = validate_Config false
         (VDict (("settings", sample_settings)
                 :: [("fw", VDict [])] ++ [])%list).
Proof.
  assert (H : wf ([("fw", VDict [])] ++ [("settings", sample_settings)])%list).
  { unfold wf. simpl. repeat constructor; simpl; intuition discriminate. }
  split; [exact H|].
  exact (@settings_position_irrelevant _ [("fw", VDict [])] [] sample_settings
           H).
Defined.

Lemma leaf_key_order_irrelevant_witness :
  wf leaf_table
  /\ Permutation leaf_table
       [("name", VStr "table"); ("type", VStr "u16");
        ("size", VList [VInt 2; VInt 3])]
  /\ validate_LeafEntry false
       (VDict [("name", VStr "table"); ("type", VStr "u16");
               ("size", VList [VInt 2; VInt 3])])
     = Ok sample_leaf_table.
Proof.
  assert (Hwf : wf leaf_table).
  { unfold wf. simpl. repeat constructor; simpl; intuition discriminate. }
  assert (Hp : Permutation leaf_table
                 [("name", VStr "table"); ("type", VStr "u16");
                  ("size", VList [VInt 2; VInt 3])]).
  { unfold leaf_table.
    eapply perm_trans; [apply perm_skip, perm_swap | apply perm_swap]. }
  split; [exact Hwf|]. split; [exact Hp|].
  exact (@leaf_key_order_irrelevant _ leaf_table _ sample_leaf_table Hwf Hp
           eq_refl).
Defined.
